(** * ai-msme-carousel: a model of [main.py] and its properties

    [main.py] picks one topic per calendar day from [topics.json], renders
    one 1080x1080 slide per slide text into [output/carousel_<date>/], zips
    that directory, composes two captions and optionally mails the slides.

    The script is embedded function by function.  Its effects (clock, files,
    directories, environment variables, log, SMTP session) are threaded
    through an explicit [World]; Python exceptions are a result constructor.

    Modelling decisions:
    - A topic is the JSON object of the input file with the five keys the
      script reads, each either absent ([None]) or present with the type
      the script uses it at.
    - Strings are the UTF-8 bytes of the Python strings.
    - [textwrap.fill], Pillow's text measurement, [json.load], the header
      checks of [email.message], the texts of codec errors and the working
      directory are library or process facts: they are the operations of
      the class [Externals].  The
      script calls [ImageDraw.textsize] and [ImageDraw.multiline_textsize],
      which Pillow has up to version 9; the model is of a run with such a
      Pillow, whose built-in bitmap font encodes text as latin-1 and raises
      [UnicodeEncodeError] on any other character.
    - A file is known by its kind: text with its decoded content, a PNG or
      other picture with its image, a font, an archive with its members.
    - The store maps the path text the script uses to the content of a
      regular file, [dirs] holds the directories.  Making a directory and
      opening a file for writing fail as the operating system makes them
      fail when a regular file, a directory or a missing directory is in
      the way; permissions and disk space are not modelled.  The one file
      the script also learns an absolute name of is the archive:
      [shutil.make_archive] writes it at the relative name and returns the
      absolute one, which the script only logs.
    - The clock holds one date for the whole run.
    - [smtp_fault] tells, for each step of the SMTP session, the exception
      the step raises, if any.
    - [trace] records, in order, every log record, every SMTP step, and one
      marker per call of [render_slide] and of [send_email]. *)

From Stdlib Require Import ZArith QArith Ascii.
From stdpp Require Import gmap strings list fin_maps pretty.

Set Warnings "-clear-no-such-hyp".

Open Scope string_scope.
Open Scope Z_scope.

(** ** Python values the script manipulates *)

(** [datetime.date]: a proleptic Gregorian calendar date. *)
Record date := Date { year : Z; month : Z; day : Z }.

Definition is_leap (y : Z) : bool :=
  (y mod 4 =? 0) && (negb (y mod 100 =? 0) || (y mod 400 =? 0)).

Definition days_before_year (y : Z) : Z :=
  let y := y - 1 in y * 365 + y / 4 - y / 100 + y / 400.

Definition DAYS_BEFORE_MONTH : list Z :=
  [0; 31; 59; 90; 120; 151; 181; 212; 243; 273; 304; 334].

Definition days_before_month (y m : Z) : Z :=
  nth (Z.to_nat (m - 1)) DAYS_BEFORE_MONTH 0
  + (if (2 <? m) && is_leap y then 1 else 0).

(** [date.toordinal()]: 1 for 0001-01-01. *)
Definition toordinal (d : date) : Z :=
  days_before_year (year d) + days_before_month (year d) (month d) + day d.

(** [str.zfill]-style left padding, as ["%04d"] and ["%02d"] need it. *)
Definition zfill (width : nat) (s : string) : string :=
  String.concat "" (replicate (width - String.length s) "0") +:+ s.

(** [date.isoformat()]: YYYY-MM-DD. *)
Definition isoformat (d : date) : string :=
  zfill 4 (pretty (year d)) +:+ "-" +:+ zfill 2 (pretty (month d))
  +:+ "-" +:+ zfill 2 (pretty (day d)).

(** A topic of [topics.json]. *)
Module Topic.
Record t := Make {
  title : option string;
  slides : option (list string);
  short_caption : option string;
  long_caption : option string;
  hashtags : option (list string)
}.
End Topic.

(** [dict.get(key, default)] on a key of a topic. *)
Definition get {A} (field : option A) (dflt : A) : A := default dflt field.

(** [sep.join(parts)]. *)
Definition join (sep : string) (parts : list string) : string :=
  String.concat sep parts.

(** Truth value of a [str]: only the empty string is false. *)
Definition truthy (s : string) : bool := negb (String.eqb s "").

(** Truth value of [os.environ.get(name)]: [None] and [''] are false. *)
Definition truthy_opt (o : option string) : bool :=
  match o with Some s => truthy s | None => false end.

(** [os.path.join(a, b)] for a relative [b]. *)
Definition path_join (a b : string) : string := a +:+ "/" +:+ b.

(** [os.path.basename]: what follows the last slash. *)
Fixpoint basename_go (cur s : string) : string :=
  match s with
  | EmptyString => cur
  | String c s' =>
      if Ascii.eqb c "/"%char then basename_go "" s'
      else basename_go (cur +:+ String c "") s'
  end.
Definition basename (p : string) : string := basename_go "" p.

(** [str.lower] on the ASCII letters. *)
Definition lower_ascii (c : ascii) : ascii :=
  let n := nat_of_ascii c in
  if (65 <=? n)%nat && (n <=? 90)%nat then ascii_of_nat (n + 32) else c.
Fixpoint lower (s : string) : string :=
  match s with
  | EmptyString => EmptyString
  | String c s' => String (lower_ascii c) (lower s')
  end.

(** [os.path.splitext(p)[1]]: the extension starts at the last dot of the
    base name, the leading dots of the base name not counted. *)
Fixpoint skip_dots (s : string) : string :=
  match s with
  | String c s' => if Ascii.eqb c "."%char then skip_dots s' else s
  | EmptyString => EmptyString
  end.
Fixpoint ext_go (cur : option string) (s : string) : string :=
  match s with
  | EmptyString => default "" cur
  | String c s' =>
      if Ascii.eqb c "."%char then ext_go (Some ".") s'
      else ext_go (option_map (fun e => e +:+ String c "") cur) s'
  end.
Definition splitext_ext (p : string) : string :=
  ext_go None (skip_dots (basename p)).

(** The text can be encoded as latin-1: every character is below U+0100,
    that is, no byte of its UTF-8 form is 0xC4 or more. *)
Fixpoint latin1 (s : string) : bool :=
  match s with
  | EmptyString => true
  | String c s' => (nat_of_ascii c <? 196)%nat && latin1 s'
  end.

(** [repr] of a [str]: in single quotes, or in double quotes when the text
    holds a single quote and no double quote; the quote in use and the
    backslash are escaped, and so are the control characters.  Characters
    beyond ASCII are taken to be printable. *)
Definition hex_digit (n : nat) : ascii :=
  default "0"%char (String.get n "0123456789abcdef").
Definition repr_char (quote c : ascii) : string :=
  let n := nat_of_ascii c in
  if Ascii.eqb c quote || Ascii.eqb c "\"%char then String "\" (String c "")
  else if (n =? 9)%nat then "\t"
  else if (n =? 10)%nat then "\n"
  else if (n =? 13)%nat then "\r"
  else if (n <? 32)%nat || (n =? 127)%nat
  then "\x" +:+ String (hex_digit (n / 16)) (String (hex_digit (n mod 16)) "")
  else String c "".
Fixpoint repr_body (quote : ascii) (s : string) : string :=
  match s with
  | EmptyString => EmptyString
  | String c s' => repr_char quote c +:+ repr_body quote s'
  end.
Fixpoint has_char (c : ascii) (s : string) : bool :=
  match s with
  | EmptyString => false
  | String c' s' => Ascii.eqb c c' || has_char c s'
  end.
Definition py_repr (p : string) : string :=
  let quote := if has_char "'"%char p && negb (has_char (ascii_of_nat 34) p)
               then ascii_of_nat 34 else "'"%char in
  String quote (repr_body quote p) +:+ String quote "".

(** The text of an [OSError] that carries an errno and a file name. *)
Definition os_error_text (errno : Z) (strerror p : string) : string :=
  "[Errno " +:+ pretty errno +:+ "] " +:+ strerror +:+ ": " +:+ py_repr p.

(** ** Fonts, images, files *)

Inductive Font :=
  | FreeTypeFont (path : string) (size : Z)
  | DefaultFont.

Inductive DrawOp :=
  | Rectangle (box : Z * Z * Z * Z) (fill : string)
  | MultilineText (xy : Q * Q) (text : string) (font : Font)
                  (fill align : string) (spacing : Z)
  | DrawText (xy : Q * Q) (text : string) (font : Font) (fill : string).

(** A Pillow image: created at a size with a background, then drawn on. *)
Record Image := MkImage {
  im_mode : string;
  im_size : Z * Z;
  im_color : string;
  im_ops : list DrawOp
}.

Definition Image_new (mode : string) (size : Z * Z) (color : string) : Image :=
  MkImage mode size color [].

(** [box[0]] and [box[1]] of a four-element box. *)
Definition at0 (box : Z * Z * Z * Z) : Z := box.1.1.1.
Definition at1 (box : Z * Z * Z * Z) : Z := box.1.1.2.

Definition draw (op : DrawOp) (img : Image) : Image :=
  MkImage (im_mode img) (im_size img) (im_color img) (im_ops img ++ [op]).

Inductive FileData :=
  | Text (s : string)
  | Png (img : Image)
  | Picture (format : string) (img : Image)
  | Ttf (loads : Z -> bool)
  | Zip (members : list string).

Record EmailMessage := MkEmail {
  msg_from : string;
  msg_to : string;
  msg_subject : string;
  msg_content : string;
  msg_attachments : list (string * FileData)
}.

(** ** Exceptions *)

Inductive exn_class :=
  | FileNotFoundError | IsADirectoryError | UnicodeDecodeError
  | JSONDecodeError | ZeroDivisionError | IndexError | OSError
  | SMTPException
  | NotADirectoryError | FileExistsError | UnicodeEncodeError | ValueError
  | SMTPServerDisconnected | SMTPResponseException.

Record exn := Exn { exn_cls : exn_class; exn_msg : string }.

(** In Python 3 [EnvironmentError] is another name of [OSError]. *)
Definition EnvironmentError : exn_class := OSError.

Inductive res (A : Type) :=
  | Ok (a : A)
  | Raise (e : exn).
Arguments Ok {A} a.
Arguments Raise {A} e.

(** ** Library operations whose results are taken as given *)

Class Externals := {
  (** [textwrap.fill(text, width)] *)
  textwrap_fill : string -> Z -> string;
  (** the size [ImageDraw.textsize(text, font)] gives when the font can
      encode the text *)
  textsize : string -> Font -> Z * Z;
  (** the size [ImageDraw.multiline_textsize(text, font, spacing)] gives
      when the font can encode the text *)
  multiline_textsize : string -> Font -> Z -> Z * Z;
  (** [json.loads]: the topics of a document, or the message of the
      [JSONDecodeError] *)
  json_loads : string -> string + list Topic.t;
  (** [os.getcwd()] *)
  getcwd : string;
  (** the text of the [UnicodeEncodeError] that encoding a text as latin-1
      raises *)
  encode_error : string -> string;
  (** what [Image.save] does with a file whose extension is not [.png]: the
      exception it raises before opening the file, or what it writes *)
  save_as : string -> Image -> exn + FileData;
  (** the exception that [email.message] raises when a header ([From],
      [To], [Subject]) or the [filename] of an attachment is given this
      value, if any *)
  header_error : string -> string -> option exn;
  (** the text of the [UnicodeDecodeError] that reading a file that is not
      UTF-8 text raises *)
  decode_error : FileData -> string
}.

(** ** The world the script runs in *)

Inductive smtp_stage := AtConnect | AtLogin | AtSend | AtQuit.

Inductive Event :=
  | Log (level msg : string)
  | CallRenderSlide (title body cta : string) (slide_num : Z) (out_path : string)
  | CallSendEmail (user app_password recipient subject body_text : string)
                  (attachments : list string)
  | SmtpConnect (host : string) (port : Z)
  | SmtpLogin (user app_password : string)
  | SmtpSendMessage (msg : EmailMessage)
  | SmtpQuit.

Record World := MkWorld {
  clock : date;
  store : gmap string FileData;
  dirs : gset string;
  environ : gmap string string;
  smtp_fault : smtp_stage -> option exn;
  trace : list Event
}.

(** ** The monad: state passing with exceptions *)

Definition M (A : Type) : Type := World -> res A * World.

Definition ret {A} (a : A) : M A := fun w => (Ok a, w).

Definition bind {A B} (m : M A) (k : A -> M B) : M B :=
  fun w => match m w with
           | (Ok a, w') => k a w'
           | (Raise e, w') => (Raise e, w')
           end.

Definition raise {A} (e : exn) : M A := fun w => (Raise e, w).

Notation "'do' x <- c ; k" := (bind c (fun x => k))
  (at level 10, x name, c at level 100, k at level 200).
Notation "'do' ' p <- c ; k" := (bind c (fun x => match x with p => k end))
  (at level 10, p pattern, c at level 100, k at level 200).
Notation "'run' c ; k" := (bind c (fun _ => k))
  (at level 10, c at level 100, k at level 200).

(** [try: body except Exception: handler]. *)
Definition try_except {A} (body : M A) (handler : exn -> M A) : M A :=
  fun w => match body w with
           | (Ok a, w') => (Ok a, w')
           | (Raise e, w') => handler e w'
           end.

Definition emit (e : Event) : M unit := fun w =>
  (Ok tt, MkWorld (clock w) (store w) (dirs w) (environ w) (smtp_fault w)
                  (trace w ++ [e])).

Definition logging_info (msg : string) : M unit := emit (Log "INFO" msg).
Definition logging_error (msg : string) : M unit := emit (Log "ERROR" msg).

Definition date_today : M date := fun w => (Ok (clock w), w).

Definition environ_get (name : string) : M (option string) :=
  fun w => (Ok (environ w !! name), w).

(** [os.path.exists]. *)
Definition path_exists (w : World) (p : string) : bool :=
  bool_decide (is_Some (store w !! p)) || bool_decide (p ∈ dirs w).

Definition os_path_exists (p : string) : M bool :=
  fun w => (Ok (path_exists w p), w).

(** The chain of directories on the way to [p]: every prefix of [p] that
    ends before a slash, and [p] itself. *)
Fixpoint dir_chain (acc s : string) : list string :=
  match s with
  | EmptyString => [acc]
  | String c s' =>
      if Ascii.eqb c "/"%char
      then (if String.eqb acc "" then [] else [acc]) ++ dir_chain (acc +:+ "/") s'
      else dir_chain (acc +:+ String c "") s'
  end.

Definition add_dir (q : string) (w : World) : World :=
  MkWorld (clock w) (store w) (dirs w ∪ {[q]}) (environ w) (smtp_fault w)
          (trace w).

(** [os.makedirs(p, exist_ok=True)] along the chain of [p]: a directory that
    exists is passed, a missing one is made, and a regular file in the way
    makes [mkdir] fail: on [p] itself with [FileExistsError], on the next
    name of the chain with [NotADirectoryError] otherwise. *)
Fixpoint mkdir_chain (chain : list string) : M unit :=
  match chain with
  | [] => ret tt
  | q :: rest => fun w =>
      if bool_decide (q ∈ dirs w) then mkdir_chain rest w
      else if bool_decide (is_Some (store w !! q)) then
        (Raise match rest with
               | [] => Exn FileExistsError (os_error_text 17 "File exists" q)
               | q' :: _ =>
                   Exn NotADirectoryError (os_error_text 20 "Not a directory" q')
               end, w)
      else mkdir_chain rest (add_dir q w)
  end.

Definition os_makedirs (p : string) : M unit := mkdir_chain (dir_chain "" p).

(** Walking to [p] through the directories before it, the last name of the
    chain being [p] itself: a regular file on the way gives
    [NotADirectoryError], a missing directory [FileNotFoundError]. *)
Fixpoint walk_error (w : World) (chain : list string) (p : string)
    : option exn :=
  match chain with
  | [] => None
  | q :: rest =>
      match rest with
      | [] => None
      | _ :: _ =>
          if bool_decide (q ∈ dirs w) then walk_error w rest p
          else if bool_decide (is_Some (store w !! q))
          then Some (Exn NotADirectoryError (os_error_text 20 "Not a directory" p))
          else Some (Exn FileNotFoundError
                         (os_error_text 2 "No such file or directory" p))
      end
  end.

(** The error of [open(p, "wb")], if any. *)
Definition open_error (w : World) (p : string) : option exn :=
  match walk_error w (dir_chain "" p) p with
  | Some e => Some e
  | None =>
      if bool_decide (p ∈ dirs w)
      then Some (Exn IsADirectoryError (os_error_text 21 "Is a directory" p))
      else None
  end.

(** Opening [p] for writing and writing [d]. *)
Definition write_file (p : string) (d : FileData) : M unit := fun w =>
  match open_error w p with
  | Some e => (Raise e, w)
  | None =>
      (Ok tt, MkWorld (clock w) (<[p := d]> (store w)) (dirs w)
                      (environ w) (smtp_fault w) (trace w))
  end.

(** The error of opening [p] for reading when the store has no file at it. *)
Definition missing_error (w : World) (p : string) : exn :=
  match walk_error w (dir_chain "" p) p with
  | Some e => e
  | None =>
      if bool_decide (p ∈ dirs w)
      then Exn IsADirectoryError (os_error_text 21 "Is a directory" p)
      else Exn FileNotFoundError (os_error_text 2 "No such file or directory" p)
  end.

(** [open(path, "r", encoding="utf-8")] followed by reading it all; a file
    that is not text does not decode. *)
Definition read_text `{ext : Externals} (p : string) : M string := fun w =>
  match store w !! p with
  | Some (Text s) => (Ok s, w)
  | Some d => (Raise (Exn UnicodeDecodeError (decode_error d)), w)
  | None => (Raise (missing_error w p), w)
  end.

(** [open(path, "rb")] followed by reading it all. *)
Definition read_bytes (p : string) : M FileData := fun w =>
  match store w !! p with
  | Some d => (Ok d, w)
  | None => (Raise (missing_error w p), w)
  end.

(** ** Library operations the script calls *)

Definition len {A} (l : list A) : Z := Z.of_nat (length l).

Definition nl : string := String (ascii_of_nat 10) "".

(** [a % b] on Python integers. *)
Definition py_mod (a b : Z) : M Z :=
  if b =? 0 then raise (Exn ZeroDivisionError "integer modulo by zero")
  else ret (a mod b).

(** [l[i]] on a Python list. *)
Definition py_getitem {A} (l : list A) (i : Z) : M A :=
  let j := if i <? 0 then i + len l else i in
  if j <? 0 then raise (Exn IndexError "list index out of range")
  else match l !! Z.to_nat j with
       | Some a => ret a
       | None => raise (Exn IndexError "list index out of range")
       end.

(** [ImageFont.truetype(p, size=size)]. *)
Definition ImageFont_truetype (p : string) (size : Z) : M Font := fun w =>
  match store w !! p with
  | Some (Ttf loads) =>
      if loads size then (Ok (FreeTypeFont p size), w)
      else (Raise (Exn OSError "cannot open resource"), w)
  | _ => (Raise (Exn OSError "cannot open resource"), w)
  end.

Definition ImageFont_load_default : Font := DefaultFont.

(** A font can draw and measure a text: the built-in bitmap font encodes it
    as latin-1, a FreeType font takes any text. *)
Definition font_encodes (font : Font) (text : string) : bool :=
  match font with
  | DefaultFont => latin1 text
  | FreeTypeFont _ _ => true
  end.

(** The formats [shutil.make_archive] is asked for: ["zip"]. *)
Inductive ArchiveFormat := zip_format.
Definition archive_extension (format : ArchiveFormat) : string :=
  match format with zip_format => ".zip" end.

Fixpoint strip_prefix (pre s : string) : option string :=
  match pre with
  | EmptyString => Some s
  | String a pre' =>
      match s with
      | String b s' => if Ascii.eqb a b then strip_prefix pre' s' else None
      | EmptyString => None
      end
  end.

Fixpoint ends_with_slash (s : string) : bool :=
  match s with
  | EmptyString => false
  | String c EmptyString => Ascii.eqb c "/"%char
  | String _ s' => ends_with_slash s'
  end.

(** [os.path.dirname] of a relative path without empty components. *)
Definition parent_dir (p : string) : string :=
  default "" (last (removelast (dir_chain "" p))).

(** The names an archive of [root_dir] holds, in no particular order: the
    directories and the files below it, relative to it. *)
Definition archive_members (w : World) (root_dir : string) : list string :=
  omap (fun d => (fun rel => rel +:+ "/")
                 <$> strip_prefix (root_dir +:+ "/") d) (elements (dirs w))
  ++ omap (fun kv : string * FileData =>
             strip_prefix (root_dir +:+ "/") kv.1) (map_to_list (store w)).

(** One SMTP step: it is attempted, and raises what the session holds for
    this stage. *)
Definition smtp_step (stage : smtp_stage) (ev : Event) : M unit :=
  run emit ev;
  fun w => match smtp_fault w stage with
           | Some e => (Raise e, w)
           | None => (Ok tt, w)
           end.

(** [SMTP.__exit__]: QUIT is sent; a lost connection is passed over, any
    other failure of it is raised. *)
Definition smtp_quit : M unit :=
  run emit SmtpQuit;
  fun w => match smtp_fault w AtQuit with
           | Some e =>
               match exn_cls e with
               | SMTPServerDisconnected => (Ok tt, w)
               | _ => (Raise e, w)
               end
           | None => (Ok tt, w)
           end.

(** [with smtplib.SMTP_SSL(host, port) as s: body]: when the connection is
    made, the body runs and the session is quit whatever the body did; an
    exception of the quit replaces the one of the body. *)
Definition smtp_session {A} (host : string) (port : Z) (body : M A) : M A :=
  run smtp_step AtConnect (SmtpConnect host port);
  fun w => match body w with
           | (r, w1) =>
               match smtp_quit w1 with
               | (Ok _, w2) => (r, w2)
               | (Raise e, w2) => (Raise e, w2)
               end
           end.

Section Library.
Context `{ext : Externals}.

(** [os.path.abspath] of a path without [.] or [..] components. *)
Definition os_path_abspath (p : string) : string :=
  if String.prefix "/" p then p
  else if ends_with_slash getcwd then getcwd +:+ p
  else getcwd +:+ "/" +:+ p.

(** [shutil.make_archive(base_name, format, root_dir)]: makes the directory
    of the archive if it is missing, writes the archive of [root_dir] at
    [base_name] plus the extension, and returns the absolute name of it. *)
Definition shutil_make_archive (base_name : string) (format : ArchiveFormat)
    (root_dir : string) : M string :=
  let zip_filename := base_name +:+ archive_extension format in
  let archive_dir := parent_dir base_name in
  do found <- os_path_exists archive_dir;
  run (if negb (String.eqb archive_dir "") && negb found
       then os_makedirs archive_dir else ret tt);
  run (fun w => write_file zip_filename (Zip (archive_members w root_dir)) w);
  ret (os_path_abspath zip_filename).

(** [msg[name] = value], and the [filename] of [msg.add_attachment]. *)
Definition set_header (name value : string) : M unit :=
  match header_error name value with
  | Some e => raise e
  | None => ret tt
  end.

(** Measuring and drawing text: the font has to encode it. *)
Definition check_encodes (font : Font) (text : string) : M unit :=
  if font_encodes font text then ret tt
  else raise (Exn UnicodeEncodeError (encode_error text)).

Definition draw_textsize (text : string) (font : Font) : M (Z * Z) :=
  run check_encodes font text;
  ret (textsize text font).

Definition draw_multiline_textsize (text : string) (font : Font) (spacing : Z)
    : M (Z * Z) :=
  run check_encodes font text;
  ret (multiline_textsize text font spacing).

Definition draw_text (xy : Q * Q) (text : string) (font : Font) (fill : string)
    (img : Image) : M Image :=
  run check_encodes font text;
  ret (draw (DrawText xy text font fill) img).

Definition draw_multiline_text (xy : Q * Q) (text : string) (font : Font)
    (fill align : string) (spacing : Z) (img : Image) : M Image :=
  run check_encodes font text;
  ret (draw (MultilineText xy text font fill align spacing) img).

(** [img.save(out_path)]: the extension names the format, then the file is
    opened and written. *)
Definition is_png (p : string) : bool :=
  String.eqb (lower (splitext_ext p)) ".png".

Definition save (img : Image) (out_path : string) : M unit :=
  do content <- (if is_png out_path then ret (Png img)
                 else match save_as (splitext_ext out_path) img with
                      | inr d => ret d
                      | inl e => raise e
                      end);
  write_file out_path content.

End Library.

(** ** The script *)

Definition OUT_BASE : string := "output".
Definition SLIDE_SIZE : Z * Z := (1080, 1080).
Definition PALETTE : gmap string string :=
  {[ "bg" := "#0F4C5C";
     "muted" := "#A7D7C5";
     "cream" := "#F7F6F2";
     "accent" := "#F5B041";
     "dark" := "#092A2F" ]}.

Definition candidates : list string :=
  [ "/usr/share/fonts/truetype/dejavu/DejaVuSans-Bold.ttf";
    "/usr/share/fonts/truetype/dejavu/DejaVuSans.ttf";
    "/usr/share/fonts/truetype/liberation/LiberationSans-Regular.ttf";
    "C:\Windows\Fonts\Arial.ttf" ].

(** The [for p in candidates] loop of [find_font]. *)
Fixpoint find_font_loop (ps : list string) (size : Z) : M Font :=
  match ps with
  | [] => ret ImageFont_load_default
  | p :: ps' =>
      do found <- os_path_exists p;
      if found : bool
      then try_except (ImageFont_truetype p size)
                      (fun _ => find_font_loop ps' size)
      else find_font_loop ps' size
  end.

Definition find_font (size : Z) : M Font := find_font_loop candidates size.

Section Script.
Context `{ext : Externals}.

Definition render_slide (title body cta : string) (slide_num : Z)
    (out_path : string) : M unit :=
  run emit (CallRenderSlide title body cta slide_num out_path);
  let '(W, H) := SLIDE_SIZE in
  let img := Image_new "RGB" (W, H) (PALETTE !!! "bg") in
  do title_font <- find_font 56;
  do body_font <- find_font 30;
  do cta_font <- find_font 26;
  do small_font <- find_font 18;
  let padding := 60 in
  let header_h := 160 in
  let img := draw (Rectangle (0, 0, W, header_h) (PALETTE !!! "muted")) img in
  let title_wrapped := textwrap_fill title 20 in
  do '(w, h) <- draw_multiline_textsize title_wrapped title_font 6;
  do img <- draw_multiline_text (Qmake (W - w) 2, inject_Z 28)
                                title_wrapped title_font
                                (PALETTE !!! "dark") "center" 6 img;
  let body_y := header_h + 30 in
  let body_box := (padding, body_y, W - padding, H - 160) in
  let img := draw (Rectangle body_box (PALETTE !!! "cream")) img in
  let body_wrapped := textwrap_fill body 40 in
  do img <- draw_multiline_text (inject_Z (at0 body_box + 24),
                                 inject_Z (at1 body_box + 24))
                                body_wrapped body_font
                                (PALETTE !!! "dark") "left" 6 img;
  do img <-
    (if truthy cta then
       do '(cta_w, cta_h) <- draw_textsize cta cta_font;
       let cta_box := (W - padding - cta_w - 30, H - 120 - 10,
                       W - padding, H - 120 + cta_h + 10) in
       let img := draw (Rectangle cta_box (PALETTE !!! "accent")) img in
       draw_text (inject_Z (at0 cta_box + 12), inject_Z (at1 cta_box + 6))
                 cta cta_font (PALETTE !!! "dark") img
     else ret img);
  let footer := "AI for MSMEs • Slide " +:+ pretty slide_num in
  do '(fw, fh) <- draw_textsize footer small_font;
  do img <- draw_text (Qmake (W - fw) 2, inject_Z (H - 40)) footer small_font
                      (PALETTE !!! "muted") img;
  save img out_path.

(** The [for i, s in enumerate(slides, start=1)] loop of
    [generate_carousel]: [i] is the index of the head of [rest], [files] the
    paths appended so far. *)
Fixpoint slides_loop (topic : Topic.t) (slides : list string) (outdir : string)
    (i : Z) (rest : list string) (files : list string) : M (list string) :=
  match rest with
  | [] => ret files
  | s :: rest' =>
      let title := if i =? 1 then get (Topic.title topic) "AI for MSMEs"
                   else "Slide " +:+ pretty i in
      let body := s in
      let cta := if i =? len slides
                 then "Email for template: arunksurana@gmail.com" else "" in
      let out_path := path_join outdir ("slide_" +:+ pretty i +:+ ".png") in
      run render_slide title body cta i out_path;
      slides_loop topic slides outdir (i + 1) rest' (files ++ [out_path])
  end.

Definition generate_carousel (topic : Topic.t)
    : M (string * list string * string) :=
  do d <- date_today;
  let today := isoformat d in
  let outdir := path_join OUT_BASE ("carousel_" +:+ today) in
  run os_makedirs outdir;
  let files := [] in
  let slides := get (Topic.slides topic) [] in
  do files <- slides_loop topic slides outdir 1 slides files;
  let zip_base := path_join OUT_BASE ("carousel_" +:+ today) in
  do zip_path <- shutil_make_archive zip_base zip_format outdir;
  ret (outdir, files, zip_path).

Definition load_topics (path : string) : M (list Topic.t) :=
  do found <- os_path_exists path;
  if negb found then
    run logging_error "topics.json missing in repo root. Create it and commit.";
    raise (Exn FileNotFoundError "topics.json missing.")
  else
    do f <- read_text path;
    match json_loads f with
    | inr topics => ret topics
    | inl e =>
        run logging_error ("topics.json is not valid JSON: " +:+ e);
        raise (Exn JSONDecodeError e)
    end.

Definition compose_captions (topic : Topic.t) : string * string :=
  let li := get (Topic.title topic) "" +:+ nl +:+ nl
            +:+ get (Topic.long_caption topic) "" +:+ nl +:+ nl
            +:+ join " " (get (Topic.hashtags topic) []) in
  let insta := get (Topic.short_caption topic) (get (Topic.title topic) "")
               +:+ nl +:+ nl
               +:+ join " " (get (Topic.hashtags topic) []) in
  (li, insta).

(** The [for path in attachments] loop of [send_email]. *)
Fixpoint attach_loop (msg : EmailMessage) (attachments : list string)
    : M EmailMessage :=
  match attachments with
  | [] => ret msg
  | path :: rest =>
      do data <- read_bytes path;
      run set_header "filename" (basename path);
      attach_loop (MkEmail (msg_from msg) (msg_to msg) (msg_subject msg)
                           (msg_content msg)
                           (msg_attachments msg ++ [(basename path, data)]))
                  rest
  end.

Definition send_email (user app_password recipient subject body_text : string)
    (attachments : list string) : M unit :=
  run emit (CallSendEmail user app_password recipient subject body_text
                          attachments);
  run set_header "From" user;
  run set_header "To" recipient;
  run set_header "Subject" subject;
  let msg := MkEmail user recipient subject body_text [] in
  do msg <- attach_loop msg attachments;
  smtp_session "smtp.gmail.com" 465
    (run smtp_step AtLogin (SmtpLogin user app_password);
     smtp_step AtSend (SmtpSendMessage msg)).

Definition main (send_email_flag : bool) : M unit :=
  do topics <- load_topics "topics.json";
  do d <- date_today;
  do idx <- py_mod (toordinal d) (len topics);
  do topic <- py_getitem topics idx;
  do '(outdir, files, zip_path) <- generate_carousel topic;
  let '(li_caption, insta_caption) := compose_captions topic in
  run logging_info ("Generated output: " +:+ outdir);
  run logging_info ("ZIP created: " +:+ zip_path);
  run logging_info ("LinkedIn caption:" +:+ nl +:+ li_caption);
  run logging_info ("Instagram caption:" +:+ nl +:+ insta_caption);
  if send_email_flag then
    do user <- environ_get "GMAIL_USER";
    do app_password <- environ_get "GMAIL_APP_PASSWORD";
    do recipient <- environ_get "RECIPIENT";
    if negb (truthy_opt user && truthy_opt app_password && truthy_opt recipient)
    then
      run logging_error "Missing one of GMAIL_USER / GMAIL_APP_PASSWORD / RECIPIENT (set as GitHub Secrets). Aborting email send.";
      raise (Exn EnvironmentError "Missing email env vars.")
    else
      do d' <- date_today;
      let subject := "Carousel: " +:+ get (Topic.title topic) "AI for MSMEs"
                     +:+ " (" +:+ isoformat d' +:+ ")" in
      let body := insta_caption +:+ nl +:+ nl +:+ "(Images attached)" in
      run send_email (default "" user) (default "" app_password)
                     (default "" recipient) subject body files;
      logging_info ("Email sent to " +:+ default "" recipient)
  else ret tt.

(** The [if __name__ == "__main__"] block, after [argparse] has read the
    [--send-email] flag: the exit status of the process and the final world. *)
Definition script (send_email : bool) (w : World) : Z * World :=
  match main send_email w with
  | (Ok _, w') => (0, w')
  | (Raise e, w') =>
      match logging_error ("Failed: " +:+ exn_msg e) w' with
      | (_, w'') => (1, w'')
      end
  end.

End Script.

(** ** Vocabulary of the properties *)

(** A candidate font file is usable at [size]: the path exists and
    [ImageFont.truetype] loads it. *)
Definition loads_ok (w : World) (size : Z) (p : string) : bool :=
  path_exists w p &&
  match ImageFont_truetype p size w with
  | (Ok _, _) => true
  | (Raise _, _) => false
  end.

(** The font that [find_font] resolves at [size] in the world [w], and the
    worlds in which a candidate loads at each of the four sizes the script
    asks for. *)
Definition font_of (w : World) (size : Z) : Font :=
  match List.find (loads_ok w size) candidates with
  | Some p => FreeTypeFont p size
  | None => DefaultFont
  end.
Definition font_loads (w : World) (size : Z) : bool :=
  match List.find (loads_ok w size) candidates with
  | Some _ => true
  | None => false
  end.
Definition fonts_load (w : World) : bool :=
  font_loads w 56 && font_loads w 30 && font_loads w 26 && font_loads w 18.

(** The output directory of a run on the date of [w], and the path of the
    archive file beside it. *)
Definition outdir_of (w : World) : string :=
  path_join OUT_BASE ("carousel_" +:+ isoformat (clock w)).
Definition zip_of (w : World) : string := outdir_of w +:+ ".zip".

(** The path of slide [i] below [outdir]. *)
Definition slide_path (outdir : string) (i : Z) : string :=
  path_join outdir ("slide_" +:+ pretty i +:+ ".png").

(** Nothing is in the way of a carousel: no regular file where the output
    directories go, no directory where a slide or the archive goes. *)
Definition clear_for_carousel (w : World) : Prop :=
  store w !! OUT_BASE = None
  /\ store w !! outdir_of w = None
  /\ (forall i, slide_path (outdir_of w) i ∉ dirs w)
  /\ zip_of w ∉ dirs w.

(** Two worlds hold the same candidate font files. *)
Definition same_fonts (w w' : World) : Prop :=
  Forall (fun p => store w !! p = store w' !! p) candidates.

(** [open(p, "wb")] finds its way: every directory on the way to [p] exists
    and [p] itself is not a directory. *)
Definition writable (w : World) (p : string) : Prop :=
  (forall q, q ∈ removelast (dir_chain "" p) -> q ∈ dirs w) /\ p ∉ dirs w.

(** An image carries the CTA badge: a rectangle in the accent colour. *)
Definition is_cta_badge (op : DrawOp) : bool :=
  match op with
  | Rectangle _ fill => String.eqb fill (PALETTE !!! "accent")
  | _ => false
  end.
Definition has_cta_badge (img : Image) : bool := existsb is_cta_badge (im_ops img).

(** The CTA text is drawn on the image. *)
Definition draws_text (text : string) (img : Image) : bool :=
  existsb (fun op => match op with
                     | DrawText _ t _ _ => String.eqb t text
                     | _ => false
                     end) (im_ops img).

(** A wrapped text is drawn on the image. *)
Definition draws_multiline (text : string) (img : Image) : bool :=
  existsb (fun op => match op with
                     | MultilineText _ t _ _ _ _ => String.eqb t text
                     | _ => false
                     end) (im_ops img).

(** The CTA of the last slide, the footer and the file name of slide [i],
    and the title the loop of [generate_carousel] gives slide [i]. *)
Definition CTA_TEXT : string := "Email for template: arunksurana@gmail.com".
Definition footer_of (i : Z) : string := "AI for MSMEs • Slide " +:+ pretty i.
Definition slide_name (i : Z) : string := "slide_" +:+ pretty i +:+ ".png".
Definition title_of (topic : Topic.t) (i : Z) : string :=
  if i =? 1 then get (Topic.title topic) "AI for MSMEs"
  else "Slide " +:+ pretty i.
Definition cta_for (slides : list string) (i : Z) : string :=
  if i =? len slides then CTA_TEXT else "".

(** The marker that the loop iteration for index [i] and slide text [s]
    leaves in the trace. *)
Definition call_of (topic : Topic.t) (slides : list string) (outdir : string)
    (i : Z) (s : string) : Event :=
  CallRenderSlide
    (if i =? 1 then get (Topic.title topic) "AI for MSMEs"
     else "Slide " +:+ pretty i)
    s (if i =? len slides then CTA_TEXT else "") i (slide_path outdir i).

(** The markers of the slides of [topic], rendered in the world [w]. *)
Definition calls_of (topic : Topic.t) (w : World) : list Event :=
  zip_with (call_of topic (get (Topic.slides topic) []) (outdir_of w))
           (seqZ 1 (len (get (Topic.slides topic) [])))
           (get (Topic.slides topic) []).

(** The expression [datetime.date.today().toordinal() % len(topics)] of
    [main]. *)
Definition index_expr (topics : list Topic.t) : M Z :=
  do d <- date_today; py_mod (toordinal d) (len topics).

(** Events of the email step. *)
Definition is_email_event (ev : Event) : bool :=
  match ev with
  | CallSendEmail _ _ _ _ _ _ | SmtpConnect _ _ | SmtpLogin _ _
  | SmtpSendMessage _ | SmtpQuit => true
  | Log _ _ | CallRenderSlide _ _ _ _ _ => false
  end.

(** A topic with one caption key set. *)
Definition with_long_caption (v : string) (topic : Topic.t) : Topic.t :=
  Topic.Make (Topic.title topic) (Topic.slides topic)
             (Topic.short_caption topic) (Some v) (Topic.hashtags topic).
Definition with_short_caption (v : string) (topic : Topic.t) : Topic.t :=
  Topic.Make (Topic.title topic) (Topic.slides topic)
             (Some v) (Topic.long_caption topic) (Topic.hashtags topic).

(** A string without a slash, as a file name is. *)
Fixpoint no_slash (s : string) : bool :=
  match s with
  | EmptyString => true
  | String c s' => negb (Ascii.eqb c "/"%char) && no_slash s'
  end.

(** A string without a dot. *)
Fixpoint no_dot (s : string) : bool :=
  match s with
  | EmptyString => true
  | String c s' => negb (Ascii.eqb c "."%char) && no_dot s'
  end.

(** The first character of a string. *)
Definition head_char (s : string) : option ascii :=
  match s with
  | EmptyString => None
  | String c _ => Some c
  end.


(** The world [w] with more events in its trace. *)
Definition logged (w : World) (evs : list Event) : World :=
  MkWorld (clock w) (store w) (dirs w) (environ w) (smtp_fault w)
          (trace w ++ evs).

(** The exception that leaving the SMTP session raises, if any: a failure
    of QUIT that is not a lost connection. *)
Definition quit_error (w : World) : option exn :=
  match smtp_fault w AtQuit with
  | Some e =>
      match exn_cls e with
      | SMTPServerDisconnected => None
      | _ => Some e
      end
  | None => None
  end.

(** The check of the three email variables in [main]. *)
Definition email_configured (w : World) : bool :=
  truthy_opt (environ w !! "GMAIL_USER")
  && truthy_opt (environ w !! "GMAIL_APP_PASSWORD")
  && truthy_opt (environ w !! "RECIPIENT").

Section Vocabulary.
Context `{ext : Externals}.

(** The name of the archive that [generate_carousel] returns. *)
Definition zip_path_of (w : World) : string := os_path_abspath (zip_of w).

(** The four log records with which [main] reports a carousel. *)
Definition report_of (topic : Topic.t) (w : World) : list Event :=
  [ Log "INFO" ("Generated output: " +:+ outdir_of w);
    Log "INFO" ("ZIP created: " +:+ zip_path_of w);
    Log "INFO" ("LinkedIn caption:" +:+ nl +:+ (compose_captions topic).1);
    Log "INFO" ("Instagram caption:" +:+ nl +:+ (compose_captions topic).2) ].


(** The first text of a slide that its font cannot encode, in the order in
    which [render_slide] measures and draws: title, body, CTA, footer. *)
Definition first_unencodable (title_font body_font cta_font small_font : Font)
    (title body cta : string) (n : Z) : option string :=
  if negb (font_encodes title_font (textwrap_fill title 20))
  then Some (textwrap_fill title 20)
  else if negb (font_encodes body_font (textwrap_fill body 40))
  then Some (textwrap_fill body 40)
  else if truthy cta && negb (font_encodes cta_font cta) then Some cta
  else if negb (font_encodes small_font (footer_of n)) then Some (footer_of n)
  else None.

(** The drawing steps of a slide, in order, with given fonts. *)
Definition slide_ops (title_font body_font cta_font small_font : Font)
    (title body cta : string) (n : Z) : list DrawOp :=
  [ Rectangle (0, 0, 1080, 160) "#A7D7C5";
    MultilineText
      (Qmake (1080 - (multiline_textsize (textwrap_fill title 20)
                                         title_font 6).1) 2,
       inject_Z 28)
      (textwrap_fill title 20) title_font "#092A2F" "center" 6;
    Rectangle (60, 190, 1020, 920) "#F7F6F2";
    MultilineText (inject_Z 84, inject_Z 214) (textwrap_fill body 40)
                  body_font "#092A2F" "left" 6 ]
  ++ (if truthy cta then
        [ Rectangle (1080 - 60 - (textsize cta cta_font).1 - 30, 950,
                     1020, 960 + (textsize cta cta_font).2 + 10)
                    "#F5B041";
          DrawText (inject_Z (1080 - 60 - (textsize cta cta_font).1 - 30 + 12),
                    inject_Z 956)
                   cta cta_font "#092A2F" ]
      else [])
  ++ [ DrawText (Qmake (1080 - (textsize (footer_of n) small_font).1) 2,
                 inject_Z 1040)
                (footer_of n) small_font "#A7D7C5" ].

(** The image of a slide as the fonts of the world [w] draw it. *)
Definition slide_image (w : World) (title body cta : string) (n : Z) : Image :=
  MkImage "RGB" (1080, 1080) "#0F4C5C"
          (slide_ops (font_of w 56) (font_of w 30) (font_of w 26) (font_of w 18)
                     title body cta n).


(** What a rendered slide shows: its wrapped title and body, its footer,
    and the CTA when there is one. *)
Definition shows (title body cta : string) (n : Z) (img : Image) : Prop :=
  draws_multiline (textwrap_fill title 20) img = true
  /\ draws_multiline (textwrap_fill body 40) img = true
  /\ draws_text (footer_of n) img = true
  /\ (cta <> "" -> draws_text cta img = true).

(** What is left of [main] once the topic is selected. *)
Definition main_for (send_email_flag : bool) (topic : Topic.t) : M unit :=
  do '(outdir, files, zip_path) <- generate_carousel topic;
  let '(li_caption, insta_caption) := compose_captions topic in
  run logging_info ("Generated output: " +:+ outdir);
  run logging_info ("ZIP created: " +:+ zip_path);
  run logging_info ("LinkedIn caption:" +:+ nl +:+ li_caption);
  run logging_info ("Instagram caption:" +:+ nl +:+ insta_caption);
  if send_email_flag then
    do user <- environ_get "GMAIL_USER";
    do app_password <- environ_get "GMAIL_APP_PASSWORD";
    do recipient <- environ_get "RECIPIENT";
    if negb (truthy_opt user && truthy_opt app_password && truthy_opt recipient)
    then
      run logging_error "Missing one of GMAIL_USER / GMAIL_APP_PASSWORD / RECIPIENT (set as GitHub Secrets). Aborting email send.";
      raise (Exn EnvironmentError "Missing email env vars.")
    else
      do d' <- date_today;
      let subject := "Carousel: " +:+ get (Topic.title topic) "AI for MSMEs"
                     +:+ " (" +:+ isoformat d' +:+ ")" in
      let body := insta_caption +:+ nl +:+ nl +:+ "(Images attached)" in
      run send_email (default "" user) (default "" app_password)
                     (default "" recipient) subject body files;
      logging_info ("Email sent to " +:+ default "" recipient)
  else ret tt.

End Vocabulary.

(** Concrete library operations and worlds for the examples: text is not
    wrapped, a glyph is 10 by 20 pixels, three documents are taken as valid
    JSON, the process runs in [/home/runner/work], only [.png] files can be
    saved, and a header value must not hold a line feed or a carriage
    return. *)
Definition demo_topic : Topic.t :=
  Topic.Make (Some "T") (Some ["a"; "b"; "c"]) None None None.
Definition demo_topic2 : Topic.t :=
  Topic.Make (Some "U") (Some ["x"; "y"]) (Some "short") (Some "long")
             (Some ["#ai"; "#msme"]).

Fixpoint has_line_break (s : string) : bool :=
  match s with
  | EmptyString => false
  | String c s' =>
      (nat_of_ascii c =? 10)%nat || (nat_of_ascii c =? 13)%nat
      || has_line_break s'
  end.

Definition demo_ext : Externals := {|
  textwrap_fill := fun s _ => s;
  textsize := fun s _ => (Z.of_nat (String.length s) * 10, 20);
  multiline_textsize := fun s _ _ => (Z.of_nat (String.length s) * 10, 20);
  json_loads := fun s =>
    if String.eqb s "[]" then inr []
    else if String.eqb s "[T]" then inr [demo_topic]
    else if String.eqb s "[T,U]" then inr [demo_topic; demo_topic2]
    else inl "Expecting value: line 1 column 1 (char 0)";
  getcwd := "/home/runner/work";
  encode_error := fun _ =>
    "'latin-1' codec can't encode character: ordinal not in range(256)";
  save_as := fun e _ => inl (Exn ValueError ("unknown file extension: " +:+ e));
  header_error := fun _ v =>
    if has_line_break v
    then Some (Exn ValueError
                   "Header values may not contain linefeed or carriage return characters")
    else None;
  decode_error := fun _ =>
    "'utf-8' codec can't decode byte 0x89 in position 0: invalid start byte"
|}.

Definition no_fault : smtp_stage -> option exn := fun _ => None.

(** A world without fonts. *)
Definition demo_world (doc : option string) : World :=
  MkWorld (Date 2026 11 3)
          (match doc with Some s => {[ "topics.json" := Text s ]} | None => ∅ end)
          ∅ ∅ no_fault [].

(** A world with fonts: the first candidate is a file that is not a font,
    the second a font that loads at positive sizes. *)
Definition font_files : gmap string FileData :=
  {[ "/usr/share/fonts/truetype/dejavu/DejaVuSans-Bold.ttf" := Text "x";
     "/usr/share/fonts/truetype/dejavu/DejaVuSans.ttf"
       := Ttf (fun size => 0 <? size) ]}.
Definition font_world : World :=
  MkWorld (Date 2026 11 3) font_files ∅ ∅ no_fault [].

(** A world with fonts and, possibly, a topics file. *)
Definition studio_world (doc : option string) : World :=
  MkWorld (Date 2026 11 3)
          (match doc with
           | Some s => <[ "topics.json" := Text s ]> font_files
           | None => font_files
           end)
          ∅ ∅ no_fault [].

(** A world in which the mail can go out: fonts, one topic and the three
    variables. *)
Definition mail_world (user app_password recipient : option string)
    (fault : smtp_stage -> option exn) : World :=
  MkWorld (Date 2026 11 3) (<[ "topics.json" := Text "[T]" ]> font_files) ∅
          (let set k (o : option string) (m : gmap string string) :=
             match o with Some v => <[k := v]> m | None => m end in
           set "GMAIL_USER" user
             (set "GMAIL_APP_PASSWORD" app_password
                (set "RECIPIENT" recipient ∅)))
          fault [].

(** A world with one file to attach, and a world that only has a date. *)
Definition attachment_world (fault : smtp_stage -> option exn) : World :=
  MkWorld (Date 2026 11 3) {[ "out/slide_1.png" := Text "png" ]} ∅ ∅ fault [].
Definition dated_world (d : date) : World := MkWorld d ∅ ∅ ∅ no_fault [].

(** ** The model on concrete inputs *)

Example toordinal_first_day : toordinal (Date 1 1 1) = 1.
Proof. reflexivity. Qed.

Example toordinal_2024 : toordinal (Date 2024 1 1) = 738886.
Proof. reflexivity. Qed.

Example toordinal_leap_day : toordinal (Date 2024 3 1) = 738886 + 31 + 29.
Proof. reflexivity. Qed.

Example isoformat_pads : isoformat (Date 987 6 5) = "0987-06-05".
Proof. reflexivity. Qed.

Example basename_of_slide :
  basename "output/carousel_2026-11-03/slide_2.png" = "slide_2.png".
Proof. reflexivity. Qed.

Example splitext_examples :
  splitext_ext "a/b.PNG" = ".PNG" /\ splitext_ext ".png" = ""
  /\ splitext_ext "a.b/c" = "" /\ splitext_ext "x..png" = ".png"
  /\ splitext_ext "..png" = "".
Proof. repeat split. Qed.

Example py_repr_examples :
  py_repr "output/slide_1.png" = "'output/slide_1.png'"
  /\ py_repr "a\b" = "'a\\b'"
  /\ py_repr (String (ascii_of_nat 9) "x") = "'\tx'"
  /\ py_repr (String (ascii_of_nat 1) "") = "'\x01'"
  /\ String.length (py_repr "it's") = 6%nat
  /\ os_error_text 2 "No such file or directory" "topics.json"
     = "[Errno 2] No such file or directory: 'topics.json'".
Proof. repeat split. Qed.

Example footer_is_not_latin1 :
  latin1 "AI for MSMEs • Slide 1" = false /\ latin1 "Slide 1" = true.
Proof. split; reflexivity. Qed.

Example abspath_of_archive :
  @os_path_abspath demo_ext "output/carousel_2026-11-03.zip"
  = "/home/runner/work/output/carousel_2026-11-03.zip".
Proof. reflexivity. Qed.

Example find_font_skips_unloadable :
  find_font 56 font_world =
  (Ok (FreeTypeFont "/usr/share/fonts/truetype/dejavu/DejaVuSans.ttf" 56),
   font_world).
Proof. vm_compute. reflexivity. Qed.

Example find_font_degrades_to_default :
  find_font 0 font_world = (Ok DefaultFont, font_world)
  /\ find_font 56 (demo_world None) = (Ok DefaultFont, demo_world None).
Proof. split; vm_compute; reflexivity. Qed.

Example studio_run_exits_0 :
  (@script demo_ext false (studio_world (Some "[T]"))).1 = 0.
Proof. vm_compute. reflexivity. Qed.

Example fontless_run_exits_1 :
  (@script demo_ext false (demo_world (Some "[T]"))).1 = 1.
Proof. vm_compute. reflexivity. Qed.

Example file_in_the_way_exits_1 :
  (@script demo_ext false
     (MkWorld (Date 2026 11 3)
              (<[ "output" := Text "" ]>
                 (<[ "topics.json" := Text "[T]" ]> font_files))
              ∅ ∅ no_fault [])).1 = 1.
Proof. vm_compute. reflexivity. Qed.

Example demo_run_malformed_json_exits_1 :
  (@script demo_ext false (demo_world (Some "{"))).1 = 1.
Proof. vm_compute. reflexivity. Qed.

Example studio_run_last_slide :
  match store (@script demo_ext false (studio_world (Some "[T]"))).2
        !! "output/carousel_2026-11-03/slide_3.png" with
  | Some (Png img) =>
      im_size img = (1080, 1080) /\ length (im_ops img) = 7%nat
      /\ draws_text CTA_TEXT img = true
  | _ => False
  end.
Proof. vm_compute. repeat split. Qed.

Example studio_run_first_slide :
  match store (@script demo_ext false (studio_world (Some "[T]"))).2
        !! "output/carousel_2026-11-03/slide_1.png" with
  | Some (Png img) =>
      im_size img = (1080, 1080) /\ length (im_ops img) = 5%nat
      /\ has_cta_badge img = false
  | _ => False
  end.
Proof. vm_compute. repeat split. Qed.

Example studio_run_archive :
  store (@script demo_ext false (studio_world (Some "[T]"))).2
    !! "output/carousel_2026-11-03.zip"
  = Some (Zip ["slide_3.png"; "slide_1.png"; "slide_2.png"]).
Proof. vm_compute. reflexivity. Qed.

(** ** Font resolution *)

Lemma find_font_loop_spec (ps : list string) (size : Z) (w : World) :
  find_font_loop ps size w =
  (Ok (match List.find (loads_ok w size) ps with
       | Some p => FreeTypeFont p size
       | None => DefaultFont
       end), w).
Proof.
  induction ps as [|p ps IH]; [reflexivity|].
  cbn [find_font_loop List.find]. unfold bind, os_path_exists, loads_ok at 1.
  destruct (path_exists w p); cbn [andb]; [|exact IH].
  unfold try_except, ImageFont_truetype.
  destruct (store w !! p) as [[s|img|fmt img|loads|ms]|]; try exact IH.
  destruct (loads size); [reflexivity|exact IH].
Qed.

Lemma find_font_returns (size : Z) (w : World) :
  find_font size w = (Ok (font_of w size), w).
Proof. apply find_font_loop_spec. Qed.

(** C8: whatever the requested size and whatever font files exist and load,
    [find_font] returns a font and raises nothing: the first candidate, in
    the order of the list, whose path exists and loads at that size, and the
    built-in default font when there is none.  The world is left as it was. *)
Theorem find_font_first_loadable_or_default (size : Z) (w : World) :
  find_font size w =
  (Ok (match List.find (loads_ok w size) candidates with
       | Some p => FreeTypeFont p size
       | None => ImageFont_load_default
       end), w).
Proof. apply find_font_loop_spec. Qed.

(** Whether a candidate loads is a matter of the file at its path only. *)
Lemma loads_ok_store (w : World) (size : Z) (p : string) :
  loads_ok w size p =
  match store w !! p with
  | Some (Ttf loads) => loads size
  | _ => false
  end.
Proof.
  unfold loads_ok, path_exists, ImageFont_truetype.
  destruct (store w !! p) as [d|].
  - rewrite bool_decide_true by eauto. cbn [orb andb].
    destruct d as [s|img|fmt img|loads|ms]; try reflexivity.
    destruct (loads size); reflexivity.
  - now rewrite andb_false_r.
Qed.

Lemma find_ext {A} (f g : A -> bool) (l : list A) :
  Forall (fun a => f a = g a) l -> List.find f l = List.find g l.
Proof.
  induction 1 as [|a l Ha _ IH]; [reflexivity|].
  cbn [List.find]. now rewrite Ha, IH.
Qed.

Lemma same_fonts_find (w w' : World) (size : Z) :
  same_fonts w w' ->
  List.find (loads_ok w size) candidates
  = List.find (loads_ok w' size) candidates.
Proof.
  intros Hsame. apply find_ext. unfold same_fonts in Hsame.
  eapply Forall_impl; [exact Hsame|]. intros p Hp. cbv beta in Hp.
  now rewrite !loads_ok_store, Hp.
Qed.

Lemma font_of_same (w w' : World) (size : Z) :
  same_fonts w w' -> font_of w size = font_of w' size.
Proof. intros H. unfold font_of. now rewrite (same_fonts_find w w' size H). Qed.


Lemma same_fonts_refl (w : World) : same_fonts w w.
Proof. unfold same_fonts. apply Forall_forall. reflexivity. Qed.

Lemma same_fonts_trans (w1 w2 w3 : World) :
  same_fonts w1 w2 -> same_fonts w2 w3 -> same_fonts w1 w3.
Proof.
  unfold same_fonts. rewrite !Forall_forall. intros H12 H23 p Hp.
  now rewrite (H12 p Hp), (H23 p Hp).
Qed.

Lemma same_fonts_store (w w' : World) :
  (forall p, p ∈ candidates -> store w !! p = store w' !! p) ->
  same_fonts w w'.
Proof. intros H. unfold same_fonts. apply Forall_forall. exact H. Qed.

Lemma font_loads_true (w : World) (size : Z) :
  font_loads w size = true -> exists p, font_of w size = FreeTypeFont p size.
Proof.
  unfold font_loads, font_of.
  destruct (List.find _ _) as [p|]; [eauto|discriminate].
Qed.

Lemma font_loads_false (w : World) (size : Z) :
  font_loads w size = false -> font_of w size = DefaultFont.
Proof.
  unfold font_loads, font_of.
  destruct (List.find _ _) as [p|]; [discriminate|reflexivity].
Qed.

(** ** Strings and paths *)

Lemma PALETTE_bg : PALETTE !!! "bg" = "#0F4C5C".
Proof. reflexivity. Qed.
Lemma PALETTE_muted : PALETTE !!! "muted" = "#A7D7C5".
Proof. reflexivity. Qed.
Lemma PALETTE_cream : PALETTE !!! "cream" = "#F7F6F2".
Proof. reflexivity. Qed.
Lemma PALETTE_accent : PALETTE !!! "accent" = "#F5B041".
Proof. reflexivity. Qed.
Lemma PALETTE_dark : PALETTE !!! "dark" = "#092A2F".
Proof. reflexivity. Qed.

Lemma truthy_spec (s : string) : truthy s = true <-> s <> "".
Proof.
  unfold truthy. destruct (String.eqb_spec s ""); cbn; split; congruence.
Qed.

Lemma string_app_cons (c : ascii) (s t : string) :
  String c s +:+ t = String c (s +:+ t).
Proof. reflexivity. Qed.

Lemma string_app_nil_l (t : string) : "" +:+ t = t.
Proof. reflexivity. Qed.

Lemma string_app_nil_r (s : string) : s +:+ "" = s.
Proof.
  induction s as [|c s IH]; [reflexivity|].
  rewrite string_app_cons. now rewrite IH.
Qed.

Lemma string_app_assoc (s t u : string) : (s +:+ t) +:+ u = s +:+ (t +:+ u).
Proof.
  induction s as [|c s IH]; [reflexivity|].
  rewrite !string_app_cons. now rewrite IH.
Qed.

Lemma string_app_length (s t : string) :
  String.length (s +:+ t) = (String.length s + String.length t)%nat.
Proof.
  induction s as [|c s IH]; [reflexivity|].
  rewrite string_app_cons. cbn [String.length]. now rewrite IH.
Qed.

Lemma string_app_inj_r (s1 s2 t : string) : s1 +:+ t = s2 +:+ t -> s1 = s2.
Proof.
  revert s2. induction s1 as [|c s1 IH]; intros [|d s2] Heq.
  - reflexivity.
  - apply (f_equal String.length) in Heq.
    rewrite string_app_nil_l, string_app_cons in Heq. cbn [String.length] in Heq.
    rewrite string_app_length in Heq. lia.
  - apply (f_equal String.length) in Heq.
    rewrite string_app_nil_l, string_app_cons in Heq. cbn [String.length] in Heq.
    rewrite string_app_length in Heq. lia.
  - rewrite !string_app_cons in Heq. injection Heq as -> Heq.
    f_equal. now apply IH.
Qed.

Lemma prefix_app (a b c : string) :
  String.prefix (a +:+ b) (a +:+ c) = String.prefix b c.
Proof.
  induction a as [|x a IH]; [reflexivity|].
  rewrite !string_app_cons. cbn [String.prefix].
  destruct (ascii_dec x x) as [_|Hx]; [exact IH|congruence].
Qed.

Lemma no_slash_app (a b : string) :
  no_slash (a +:+ b) = no_slash a && no_slash b.
Proof.
  induction a as [|c a IH]; [reflexivity|].
  rewrite string_app_cons. cbn [no_slash]. rewrite IH. now rewrite andb_assoc.
Qed.

Lemma no_dot_app (a b : string) : no_dot (a +:+ b) = no_dot a && no_dot b.
Proof.
  induction a as [|c a IH]; [reflexivity|].
  rewrite string_app_cons. cbn [no_dot]. rewrite IH. now rewrite andb_assoc.
Qed.

Lemma latin1_app (a b : string) : latin1 (a +:+ b) = latin1 a && latin1 b.
Proof.
  induction a as [|c a IH]; [reflexivity|].
  rewrite string_app_cons. cbn [latin1]. rewrite IH. now rewrite andb_assoc.
Qed.

(** The digits of a number are neither a slash nor a dot. *)
Lemma pretty_N_char_plain (x : N) :
  Ascii.eqb (pretty_N_char x) "/"%char = false
  /\ Ascii.eqb (pretty_N_char x) "."%char = false.
Proof.
  unfold pretty_N_char. destruct x as [|p]; [split; reflexivity|].
  do 4 (try (destruct p as [p|p|]; try (split; reflexivity))).
Qed.

Lemma plain_pretty_N_go (x : N) :
  forall s, no_slash s && no_dot s = true ->
            no_slash (pretty_N_go x s) && no_dot (pretty_N_go x s) = true.
Proof.
  induction (N.lt_wf_0 x) as [x _ IH]. intros s Hs.
  destruct (decide (x = 0%N)) as [->|Hx].
  - now rewrite pretty_N_go_0.
  - rewrite pretty_N_go_step by lia. apply IH.
    + apply N.div_lt; lia.
    + cbn [no_slash no_dot].
      destruct (pretty_N_char_plain (x `mod` 10)) as [-> ->].
      exact Hs.
Qed.

Lemma plain_pretty_Z (i : Z) :
  no_slash (pretty i) = true /\ no_dot (pretty i) = true.
Proof.
  assert (Hpos : forall p : positive,
             no_slash (pretty p) && no_dot (pretty p) = true).
  { intros p. unfold pretty, pretty_positive, pretty, pretty_N.
    case_decide; [reflexivity|]. now apply plain_pretty_N_go. }
  apply andb_true_iff. destruct i as [|p|p]; [reflexivity|apply Hpos|].
  change (pretty (Z.neg p)) with ("-" +:+ pretty p).
  rewrite no_slash_app, no_dot_app. specialize (Hpos p).
  apply andb_true_iff in Hpos as [-> ->]. reflexivity.
Qed.

Lemma no_slash_pretty_Z (i : Z) : no_slash (pretty i) = true.
Proof. apply plain_pretty_Z. Qed.

Lemma no_dot_pretty_Z (i : Z) : no_dot (pretty i) = true.
Proof. apply plain_pretty_Z. Qed.

Lemma no_slash_zfill (n : nat) (s : string) :
  no_slash (zfill n s) = no_slash s.
Proof.
  unfold zfill. rewrite no_slash_app.
  induction (n - String.length s)%nat as [|k IH]; [reflexivity|].
  cbn [replicate String.concat]. destruct (replicate k "0") eqn:Hrep.
  - reflexivity.
  - rewrite <- Hrep in *. rewrite string_app_nil_l in *.
    rewrite no_slash_app. cbn [no_slash Ascii.eqb Bool.eqb negb andb].
    exact IH.
Qed.

Lemma no_slash_isoformat (d : date) : no_slash (isoformat d) = true.
Proof.
  unfold isoformat.
  rewrite !no_slash_app, !no_slash_zfill, !no_slash_pretty_Z. reflexivity.
Qed.

Lemma no_slash_slide_name (i : Z) : no_slash (slide_name i) = true.
Proof.
  unfold slide_name. rewrite !no_slash_app, no_slash_pretty_Z. reflexivity.
Qed.

Lemma slide_path_inj (outdir : string) (i j : Z) :
  slide_path outdir i = slide_path outdir j -> i = j.
Proof.
  unfold slide_path, path_join. intros Heq.
  do 3 apply String.app_inj in Heq.
  apply string_app_inj_r in Heq.
  now apply pretty_Z_inj in Heq.
Qed.

Lemma slide_path_name (outdir : string) (i : Z) :
  slide_path outdir i = outdir +:+ "/" +:+ slide_name i.
Proof. reflexivity. Qed.

Lemma zip_not_slide (base : string) (i : Z) :
  base +:+ ".zip" <> slide_path base i.
Proof.
  unfold slide_path, path_join. intros Heq.
  apply String.app_inj in Heq. discriminate Heq.
Qed.

Lemma app_neq_self (base t : string) : t <> "" -> base +:+ t <> base.
Proof.
  intros Ht Heq. apply (f_equal String.length) in Heq.
  rewrite string_app_length in Heq. destruct t; [congruence|].
  cbn [String.length] in Heq. lia.
Qed.

Lemma head_char_app (a b : string) :
  a <> "" -> head_char (a +:+ b) = head_char a.
Proof. destruct a; [congruence|reflexivity]. Qed.

Lemma basename_go_no_slash (b : string) :
  no_slash b = true -> forall cur, basename_go cur b = cur +:+ b.
Proof.
  induction b as [|c b IH]; intros Hb cur; cbn [basename_go].
  - now rewrite string_app_nil_r.
  - cbn [no_slash] in Hb. apply andb_true_iff in Hb as [Hc Hb].
    apply negb_true_iff in Hc. rewrite Hc, (IH Hb).
    now rewrite string_app_assoc.
Qed.

Lemma basename_go_after_slash (a b : string) :
  forall cur, basename_go cur (a +:+ "/" +:+ b) = basename_go "" b.
Proof.
  induction a as [|c a IH]; intros cur.
  - reflexivity.
  - rewrite string_app_cons. cbn [basename_go].
    destruct (Ascii.eqb c "/"%char); apply IH.
Qed.

Lemma basename_join (a b : string) :
  no_slash b = true -> basename (a +:+ "/" +:+ b) = b.
Proof.
  intros Hb. unfold basename. rewrite basename_go_after_slash.
  now rewrite basename_go_no_slash.
Qed.

Lemma basename_slide_path (outdir : string) (i : Z) :
  basename (slide_path outdir i) = slide_name i.
Proof. apply basename_join, no_slash_slide_name. Qed.

Lemma ext_go_last_dot (s t : string) :
  no_dot s = true -> no_dot t = true ->
  forall cur, ext_go cur (s +:+ "." +:+ t) = "." +:+ t.
Proof.
  intros Hs Ht.
  assert (Htail : forall e, no_dot t = true ->
                            ext_go (Some e) t = e +:+ t).
  { clear Ht. induction t as [|c t IH]; intros e Hc; cbn [ext_go].
    - cbn. now rewrite string_app_nil_r.
    - cbn [no_dot] in Hc. apply andb_true_iff in Hc as [Hc Hc'].
      apply negb_true_iff in Hc. rewrite Hc. cbn [option_map].
      rewrite (IH _ Hc'). now rewrite string_app_assoc. }
  induction s as [|c s IH]; intros cur.
  - rewrite string_app_nil_l. change ("." +:+ t) with (String "." t).
    cbn [ext_go]. change (Ascii.eqb "." ".") with true. cbn iota.
    now apply Htail.
  - cbn [no_dot] in Hs. apply andb_true_iff in Hs as [Hc Hs].
    apply negb_true_iff in Hc. rewrite string_app_cons. cbn [ext_go].
    rewrite Hc. now apply IH.
Qed.

Lemma is_png_slide_path (outdir : string) (i : Z) :
  is_png (slide_path outdir i) = true.
Proof.
  unfold is_png, splitext_ext. rewrite basename_slide_path.
  unfold slide_name.
  change ("slide_" +:+ pretty i +:+ ".png")
    with (String "s" ("lide_" +:+ pretty i +:+ ".png")).
  cbn [skip_dots]. change (Ascii.eqb "s" ".") with false. cbn iota.
  change (String "s" ("lide_" +:+ pretty i +:+ ".png"))
    with (("slide_" +:+ pretty i) +:+ "." +:+ "png").
  rewrite ext_go_last_dot; [reflexivity| |reflexivity].
  rewrite no_dot_app, no_dot_pretty_Z. reflexivity.
Qed.

(** The footer of a slide holds a bullet, which latin-1 does not have. *)
Lemma footer_not_latin1 (n : Z) : latin1 (footer_of n) = false.
Proof. unfold footer_of. rewrite latin1_app. reflexivity. Qed.

(** ** Directories *)

Lemma dir_chain_no_slash (s : string) :
  no_slash s = true -> forall acc, dir_chain acc s = [acc +:+ s].
Proof.
  induction s as [|c s IH]; intros Hs acc; cbn [dir_chain].
  - now rewrite string_app_nil_r.
  - cbn [no_slash] in Hs. apply andb_true_iff in Hs as [Hc Hs].
    apply negb_true_iff in Hc. rewrite Hc, (IH Hs).
    now rewrite string_app_assoc.
Qed.

Lemma dir_chain_snoc (name : string) (s : string) :
  no_slash name = true ->
  forall acc, acc +:+ s <> "" ->
    dir_chain acc (s +:+ "/" +:+ name)
    = (dir_chain acc s ++ [acc +:+ s +:+ "/" +:+ name])%list.
Proof.
  intros Hname. induction s as [|c s IH]; intros acc Hne.
  - rewrite string_app_nil_l. rewrite string_app_nil_r in Hne.
    change ("/" +:+ name) with (String "/" name) at 1. cbn [dir_chain].
    change (Ascii.eqb "/" "/") with true. cbn iota.
    destruct (String.eqb_spec acc ""); [congruence|].
    rewrite (dir_chain_no_slash name Hname).
    rewrite string_app_assoc. reflexivity.
  - rewrite string_app_cons. cbn [dir_chain].
    replace (acc +:+ String c (s +:+ "/" +:+ name))
      with ((acc +:+ String c "") +:+ s +:+ "/" +:+ name)
      by (now rewrite string_app_assoc).
    destruct (Ascii.eqb_spec c "/"%char) as [->|_].
    + rewrite <- app_assoc. f_equal. apply IH.
      rewrite string_app_assoc. exact Hne.
    + apply IH. rewrite string_app_assoc. exact Hne.
Qed.

Lemma dir_chain_outdir (w : World) :
  dir_chain "" (outdir_of w) = [OUT_BASE; outdir_of w].
Proof.
  unfold outdir_of, path_join.
  rewrite dir_chain_snoc; [reflexivity| |discriminate].
  rewrite no_slash_app, no_slash_isoformat. reflexivity.
Qed.

Lemma dir_chain_zip (w : World) :
  dir_chain "" (zip_of w) = [OUT_BASE; zip_of w].
Proof.
  unfold zip_of, outdir_of, path_join. rewrite !string_app_assoc.
  rewrite dir_chain_snoc; [reflexivity| |discriminate].
  rewrite !no_slash_app, no_slash_isoformat. reflexivity.
Qed.

Lemma dir_chain_slide (w : World) (i : Z) :
  dir_chain "" (slide_path (outdir_of w) i)
  = [OUT_BASE; outdir_of w; slide_path (outdir_of w) i].
Proof.
  unfold slide_path, path_join. fold (slide_name i).
  rewrite dir_chain_snoc.
  - rewrite dir_chain_outdir. reflexivity.
  - apply no_slash_slide_name.
  - discriminate.
Qed.

Lemma parent_dir_outdir (w : World) : parent_dir (outdir_of w) = OUT_BASE.
Proof. unfold parent_dir. now rewrite dir_chain_outdir. Qed.

Lemma outdir_not_base (w : World) : outdir_of w <> OUT_BASE.
Proof. unfold outdir_of, path_join. now apply app_neq_self. Qed.

Lemma zip_not_base (w : World) : zip_of w <> OUT_BASE.
Proof.
  unfold zip_of, outdir_of, path_join. rewrite !string_app_assoc.
  now apply app_neq_self.
Qed.

Lemma zip_not_outdir (w : World) : zip_of w <> outdir_of w.
Proof. unfold zip_of. now apply app_neq_self. Qed.

Lemma slide_not_base (w : World) (i : Z) :
  slide_path (outdir_of w) i <> OUT_BASE.
Proof.
  unfold slide_path, outdir_of, path_join. rewrite !string_app_assoc.
  now apply app_neq_self.
Qed.

Lemma slide_not_outdir (w : World) (i : Z) :
  slide_path (outdir_of w) i <> outdir_of w.
Proof. unfold slide_path, path_join. now apply app_neq_self. Qed.

(** The paths the script writes are not font candidates. *)
Lemma candidates_head (p : string) :
  p ∈ candidates -> head_char p <> Some "o"%char.
Proof.
  unfold candidates. rewrite !elem_of_cons, elem_of_nil.
  intros [->|[->|[->|[->|[]]]]]; discriminate.
Qed.

Lemma slide_path_not_candidate (w : World) (i : Z) :
  slide_path (outdir_of w) i ∉ candidates.
Proof. intros Hin. now apply candidates_head in Hin. Qed.


(** What [os.makedirs] does along a chain. *)
Lemma mkdir_chain_spec (chain : list string) :
  forall w : World,
  exists (r : res unit) (w' : World),
    mkdir_chain chain w = (r, w')
    /\ clock w' = clock w /\ store w' = store w /\ environ w' = environ w
    /\ smtp_fault w' = smtp_fault w /\ trace w' = trace w
    /\ dirs w ⊆ dirs w'
    /\ dirs w' ⊆ dirs w ∪ list_to_set chain
    /\ match r with
       | Ok _ => dirs w' = dirs w ∪ list_to_set chain
       | Raise e =>
           (exn_cls e = FileExistsError \/ exn_cls e = NotADirectoryError)
           /\ exists q, q ∈ chain /\ is_Some (store w !! q)
       end.
Proof.
  induction chain as [|q rest IH]; intros w.
  - exists (Ok tt), w. cbn. repeat split; try reflexivity; set_solver.
  - cbn [mkdir_chain]. case_bool_decide as Hdir.
    + destruct (IH w) as (r & w' & Hrun & Hc & Hs & He & Hf & Ht & Hsub & Hsup
                          & Hres).
      exists r, w'. rewrite Hrun. repeat split; try assumption.
      * set_solver.
      * destruct r as [[]|e].
        -- rewrite Hres. set_solver.
        -- destruct Hres as [Hcls (q' & Hq' & Hsome)]. split; [exact Hcls|].
           exists q'. split; [set_solver|exact Hsome].
    + case_bool_decide as Hfile.
      * eexists _, w. split; [reflexivity|]. repeat split; try reflexivity.
        -- set_solver.
        -- destruct rest; cbn; auto.
        -- exists q. split; [set_solver|exact Hfile].
      * destruct (IH (add_dir q w))
          as (r & w' & Hrun & Hc & Hs & He & Hf & Ht & Hsub & Hsup & Hres).
        exists r, w'. rewrite Hrun. cbn [add_dir clock store environ
                                          smtp_fault trace dirs] in *.
        repeat split; try assumption.
        -- set_solver.
        -- set_solver.
        -- destruct r as [[]|e].
           ++ rewrite Hres. set_solver.
           ++ destruct Hres as [Hcls (q' & Hq' & Hsome)]. split; [exact Hcls|].
              exists q'. split; [set_solver|exact Hsome].
Qed.

(** [os.makedirs] of the dated output directory. *)
Lemma makedirs_outdir (w : World) :
  exists (r : res unit) (w' : World),
    os_makedirs (outdir_of w) w = (r, w')
    /\ clock w' = clock w /\ store w' = store w /\ environ w' = environ w
    /\ smtp_fault w' = smtp_fault w /\ trace w' = trace w
    /\ dirs w ⊆ dirs w'
    /\ dirs w' ⊆ dirs w ∪ {[OUT_BASE; outdir_of w]}
    /\ match r with
       | Ok _ => dirs w' = dirs w ∪ {[OUT_BASE; outdir_of w]}
       | Raise e =>
           (exn_cls e = FileExistsError \/ exn_cls e = NotADirectoryError)
           /\ (is_Some (store w !! OUT_BASE)
               \/ is_Some (store w !! outdir_of w))
       end.
Proof.
  unfold os_makedirs. rewrite dir_chain_outdir.
  destruct (mkdir_chain_spec [OUT_BASE; outdir_of w] w)
    as (r & w' & Hrun & Hc & Hs & He & Hf & Ht & Hsub & Hsup & Hres).
  exists r, w'. split; [exact Hrun|]. repeat split; try assumption.
  - set_solver.
  - destruct r as [[]|e].
    + rewrite Hres. set_solver.
    + destruct Hres as [Hcls (q & Hq & Hsome)]. split; [exact Hcls|].
      apply elem_of_cons in Hq as [->|Hq]; [now left|].
      apply list_elem_of_singleton in Hq as ->. now right.
Qed.

(** Opening a file for writing. *)
Lemma walk_error_none (w : World) (p : string) (chain : list string) :
  (forall q, q ∈ removelast chain -> q ∈ dirs w) ->
  walk_error w chain p = None.
Proof.
  induction chain as [|q rest IH]; intros Hall; [reflexivity|].
  cbn [walk_error]. destruct rest as [|q' rest']; [reflexivity|].
  rewrite bool_decide_true.
  - apply IH. intros q0 Hq0. apply Hall.
    change (removelast (q :: q' :: rest')) with (q :: removelast (q' :: rest')).
    now apply list_elem_of_further.
  - apply Hall.
    change (removelast (q :: q' :: rest')) with (q :: removelast (q' :: rest')).
    apply list_elem_of_here.
Qed.

Lemma open_error_writable (w : World) (p : string) :
  writable w p -> open_error w p = None.
Proof.
  intros [Hway Hnot]. unfold open_error.
  rewrite (walk_error_none w p _ Hway).
  now rewrite bool_decide_false.
Qed.

Lemma writable_dirs (w w' : World) (p : string) :
  dirs w' = dirs w -> writable w p -> writable w' p.
Proof. unfold writable. intros ->. tauto. Qed.

Lemma open_error_files (w w' : World) (p : string) :
  store w' = store w -> dirs w' = dirs w -> open_error w' p = open_error w p.
Proof.
  intros Hs Hd. unfold open_error.
  assert (Hwalk : forall chain, walk_error w' chain p = walk_error w chain p).
  { induction chain as [|q rest IH]; [reflexivity|].
    cbn [walk_error]. rewrite Hs, Hd, IH. reflexivity. }
  now rewrite Hwalk, Hd.
Qed.

Lemma slide_writable (w w1 : World) (i : Z) :
  OUT_BASE ∈ dirs w1 -> outdir_of w ∈ dirs w1 ->
  slide_path (outdir_of w) i ∉ dirs w1 ->
  writable w1 (slide_path (outdir_of w) i).
Proof.
  intros Hbase Hout Hnot. split; [|exact Hnot].
  rewrite dir_chain_slide. cbn [removelast].
  intros q Hq. apply elem_of_cons in Hq as [->|Hq]; [exact Hbase|].
  apply list_elem_of_singleton in Hq as ->. exact Hout.
Qed.

Lemma zip_writable (w w1 : World) :
  OUT_BASE ∈ dirs w1 -> zip_of w ∉ dirs w1 -> writable w1 (zip_of w).
Proof.
  intros Hbase Hnot. split; [|exact Hnot].
  rewrite dir_chain_zip. cbn [removelast].
  intros q Hq. apply list_elem_of_singleton in Hq as ->. exact Hbase.
Qed.

(** ** Rendering one slide *)

Section Rendering.
Context `{ext : Externals}.

(** One call of [render_slide]: the fonts are those the world resolves; the
    first text its font cannot encode stops the call with
    [UnicodeEncodeError] before anything is saved; otherwise the image is
    drawn and saved. *)
Lemma render_slide_eq (title body cta : string) (n : Z) (out : string)
    (w : World) :
  render_slide title body cta n out w =
  match first_unencodable (font_of w 56) (font_of w 30) (font_of w 26)
                          (font_of w 18) title body cta n with
  | Some text =>
      (Raise (Exn UnicodeEncodeError (encode_error text)),
       (emit (CallRenderSlide title body cta n out) w).2)
  | None =>
      save (slide_image w title body cta n) out
           (emit (CallRenderSlide title body cta n out) w).2
  end.
Proof.
  unfold render_slide, bind at 1. cbn [emit snd]. cbn [SLIDE_SIZE].
  set (w0 := MkWorld (clock w) (store w) (dirs w) (environ w) (smtp_fault w)
                     (trace w ++ [CallRenderSlide title body cta n out])).
  assert (Hf : forall s, find_font s w0 = (Ok (font_of w s), w0)).
  { intros s. rewrite find_font_returns. do 2 f_equal.
    apply font_of_same, same_fonts_store. reflexivity. }
  unfold bind at 1. rewrite Hf. unfold bind at 1. rewrite Hf.
  unfold bind at 1. rewrite Hf. unfold bind at 1. rewrite Hf.
  unfold first_unencodable, slide_image, slide_ops, footer_of.
  rewrite PALETTE_bg, PALETTE_muted, PALETTE_cream, PALETTE_dark,
    PALETTE_accent.
  unfold draw_multiline_textsize, draw_multiline_text, draw_textsize,
    draw_text, check_encodes, bind, ret, raise.
  destruct (font_encodes (font_of w 56) (textwrap_fill title 20));
    cbn [negb]; [|reflexivity].
  destruct (multiline_textsize _ _ _) as [tw th]. cbn [fst snd].
  destruct (font_encodes (font_of w 30) (textwrap_fill body 40));
    cbn [negb]; [|reflexivity].
  destruct (truthy cta); cbn [andb].
  - destruct (font_encodes (font_of w 26) cta); cbn [negb]; [|reflexivity].
    destruct (textsize cta _) as [cw ch]. cbn [fst snd].
    destruct (font_encodes (font_of w 18) _); cbn [negb]; [|reflexivity].
    destruct (textsize ("AI for MSMEs • Slide " +:+ pretty n) _) as [fw fh].
    reflexivity.
  - destruct (font_encodes (font_of w 18) _); cbn [negb]; [|reflexivity].
    destruct (textsize ("AI for MSMEs • Slide " +:+ pretty n) _) as [fw fh].
    reflexivity.
Qed.

(** With the built-in font for the footer no slide is ever saved. *)
Lemma first_unencodable_default (tf bf cf : Font) (title body cta : string)
    (n : Z) :
  exists text, first_unencodable tf bf cf DefaultFont title body cta n
               = Some text.
Proof.
  unfold first_unencodable.
  destruct (negb (font_encodes tf _)); [eauto|].
  destruct (negb (font_encodes bf _)); [eauto|].
  destruct (truthy cta && negb (font_encodes cf cta)); [eauto|].
  cbn [font_encodes]. rewrite footer_not_latin1. cbn [negb]. eauto.
Qed.

(** With four FreeType fonts every text can be drawn. *)
Lemma first_unencodable_fonts (w : World) (title body cta : string) (n : Z) :
  fonts_load w = true ->
  first_unencodable (font_of w 56) (font_of w 30) (font_of w 26)
                    (font_of w 18) title body cta n = None.
Proof.
  unfold fonts_load. rewrite !andb_true_iff.
  intros [[[H56 H30] H26] H18].
  destruct (font_loads_true _ _ H56) as [p1 ->].
  destruct (font_loads_true _ _ H30) as [p2 ->].
  destruct (font_loads_true _ _ H26) as [p3 ->].
  destruct (font_loads_true _ _ H18) as [p4 ->].
  unfold first_unencodable. cbn [font_encodes negb andb].
  now rewrite andb_false_r.
Qed.

(** A call of [render_slide] on a path that ends in [.png]. *)
Lemma render_slide_png (title body cta : string) (n : Z) (out : string)
    (w : World) :
  is_png out = true ->
  render_slide title body cta n out w =
  match first_unencodable (font_of w 56) (font_of w 30) (font_of w 26)
                          (font_of w 18) title body cta n with
  | Some text =>
      (Raise (Exn UnicodeEncodeError (encode_error text)),
       MkWorld (clock w) (store w) (dirs w) (environ w) (smtp_fault w)
               (trace w ++ [CallRenderSlide title body cta n out]))
  | None =>
      match open_error w out with
      | Some e =>
          (Raise e,
           MkWorld (clock w) (store w) (dirs w) (environ w) (smtp_fault w)
                   (trace w ++ [CallRenderSlide title body cta n out]))
      | None =>
          (Ok tt,
           MkWorld (clock w)
                   (<[out := Png (slide_image w title body cta n)]> (store w))
                   (dirs w) (environ w) (smtp_fault w)
                   (trace w ++ [CallRenderSlide title body cta n out]))
      end
  end.
Proof.
  intros Hpng. rewrite render_slide_eq. cbn [emit snd].
  destruct (first_unencodable _ _ _ _ _ _ _ _); [reflexivity|].
  unfold save, bind. rewrite Hpng. unfold ret, write_file.
  rewrite (open_error_files w) by reflexivity.
  destruct (open_error w out); reflexivity.
Qed.

(** What a slide image is, whatever the fonts. *)
Lemma slide_image_canvas (w : World) (title body cta : string) (n : Z) :
  im_mode (slide_image w title body cta n) = "RGB"
  /\ im_size (slide_image w title body cta n) = (1080, 1080)
  /\ im_color (slide_image w title body cta n) = "#0F4C5C".
Proof. repeat split. Qed.

Lemma slide_image_badge (w : World) (title body cta : string) (n : Z) :
  has_cta_badge (slide_image w title body cta n) = truthy cta
  /\ length (im_ops (slide_image w title body cta n))
     = (if truthy cta then 7 else 5)%nat.
Proof.
  unfold has_cta_badge, slide_image, slide_ops. cbn [im_ops].
  destruct (truthy cta); split; reflexivity.
Qed.

Lemma slide_image_shows (w : World) (title body cta : string) (n : Z) :
  shows title body cta n (slide_image w title body cta n).
Proof.
  unfold shows, draws_multiline, draws_text, slide_image, slide_ops.
  cbn [im_ops]. rewrite !existsb_app. cbn [existsb app].
  rewrite !String.eqb_refl, !orb_true_r. cbn [orb].
  repeat split; try reflexivity.
  intros Hcta. rewrite (proj2 (truthy_spec cta) Hcta).
  cbn [existsb]. rewrite String.eqb_refl. reflexivity.
Qed.

Lemma slide_image_same (w w' : World) (title body cta : string) (n : Z) :
  same_fonts w w' ->
  slide_image w title body cta n = slide_image w' title body cta n.
Proof.
  intros H. unfold slide_image. now rewrite !(font_of_same w w' _ H).
Qed.

End Rendering.

(** ** The slide loop *)

Lemma seqZ_len_cons {A} (i : Z) (s : A) (rest : list A) :
  seqZ i (len (s :: rest)) = i :: seqZ (i + 1) (len rest).
Proof.
  rewrite seqZ_cons by (unfold len; cbn [length]; lia).
  f_equal. f_equal; unfold len; cbn [length]; lia.
Qed.

Lemma call_of_eq (topic : Topic.t) (slides : list string) (outdir : string)
    (i : Z) (s : string) :
  call_of topic slides outdir i s =
  CallRenderSlide (title_of topic i) s (cta_for slides i) i
                  (slide_path outdir i).
Proof. reflexivity. Qed.

Section Generation.
Context `{ext : Externals}.
Variables (topic : Topic.t) (slides : list string) (outdir : string).
Hypothesis Hcand : forall j, slide_path outdir j ∉ candidates.

Lemma slides_loop_cons (i : Z) (s : string) (rest acc : list string) :
  slides_loop topic slides outdir i (s :: rest) acc =
  (run render_slide (title_of topic i) s (cta_for slides i) i
                    (slide_path outdir i);
   slides_loop topic slides outdir (i + 1) rest
               (acc ++ [slide_path outdir i])).
Proof. reflexivity. Qed.

Lemma insert_slide_same_fonts (w w1 : World) (i : Z) (d : FileData) :
  store w1 = <[slide_path outdir i := d]> (store w) -> same_fonts w w1.
Proof.
  intros Hs. apply same_fonts_store. intros p Hp. rewrite Hs.
  symmetry. apply lookup_insert_ne. intros <-. now apply (Hcand i).
Qed.

(** The slide loop, however it ends: [done] slides have been written when
    it returns or raises; a loop that raises has made one more call, which
    failed on a text its font cannot encode or on opening the file. *)
Lemma slides_loop_spec (rest : list string) :
  forall (i : Z) (acc : list string) (w : World),
  exists (r : res (list string)) (w' : World) (done : nat),
    slides_loop topic slides outdir i rest acc w = (r, w')
    /\ (done <= length rest)%nat
    /\ clock w' = clock w /\ dirs w' = dirs w /\ environ w' = environ w
    /\ smtp_fault w' = smtp_fault w
    /\ trace w' =
       (trace w ++ take (match r with Ok _ => done | Raise _ => S done end)
                        (zip_with (call_of topic slides outdir)
                                  (seqZ i (len rest)) rest))%list
    /\ (forall p : string,
          (forall j, i <= j < i + Z.of_nat done -> p <> slide_path outdir j) ->
          store w' !! p = store w !! p)
    /\ (forall (k : nat) (s : string),
          (k < done)%nat -> rest !! k = Some s ->
          store w' !! slide_path outdir (i + Z.of_nat k) =
          Some (Png (slide_image w (title_of topic (i + Z.of_nat k)) s
                                 (cta_for slides (i + Z.of_nat k))
                                 (i + Z.of_nat k))))
    /\ (forall (k : nat) (s : string),
          (k < done)%nat -> rest !! k = Some s ->
          first_unencodable (font_of w 56) (font_of w 30) (font_of w 26)
                            (font_of w 18) (title_of topic (i + Z.of_nat k)) s
                            (cta_for slides (i + Z.of_nat k))
                            (i + Z.of_nat k) = None)
    /\ match r with
       | Ok files =>
           done = length rest
           /\ files = (acc ++ map (slide_path outdir) (seqZ i (len rest)))%list
       | Raise e =>
           exists s, rest !! done = Some s
             /\ match first_unencodable
                        (font_of w 56) (font_of w 30) (font_of w 26)
                        (font_of w 18) (title_of topic (i + Z.of_nat done)) s
                        (cta_for slides (i + Z.of_nat done))
                        (i + Z.of_nat done) with
                | Some text => e = Exn UnicodeEncodeError (encode_error text)
                | None =>
                    exists w1, dirs w1 = dirs w
                      /\ open_error w1 (slide_path outdir (i + Z.of_nat done))
                         = Some e
                end
       end.
Proof.
  induction rest as [|s rest IH]; intros i acc w.
  - exists (Ok acc), w, 0%nat. cbn. rewrite !app_nil_r.
    repeat split; try reflexivity; try lia.
  - rewrite slides_loop_cons. unfold bind at 1.
    rewrite (render_slide_png _ _ _ _ _ _ (is_png_slide_path outdir i)).
    rewrite seqZ_len_cons. cbn [zip_with]. rewrite call_of_eq.
    destruct (first_unencodable _ _ _ _ (title_of topic i) _ _ _)
      as [text|] eqn:Henc.
    { eexists _, _, 0%nat. split; [reflexivity|].
      cbn [clock dirs environ smtp_fault trace store length take].
      repeat split; try reflexivity; try lia.
      exists s. split; [reflexivity|].
      replace (i + Z.of_nat 0) with i by lia. now rewrite Henc. }
    destruct (open_error w (slide_path outdir i)) as [e|] eqn:Hopen.
    { eexists _, _, 0%nat. split; [reflexivity|].
      cbn [clock dirs environ smtp_fault trace store length take].
      repeat split; try reflexivity; try lia.
      exists s. split; [reflexivity|].
      replace (i + Z.of_nat 0) with i by lia. rewrite Henc.
      exists w. split; [reflexivity|exact Hopen]. }
    match goal with
    | |- context [slides_loop _ _ _ _ _ ?acc' ?w1] =>
        destruct (IH (i + 1) acc' w1)
          as (r & w' & done & Hloop & Hdone & Hc & Hd & He & Hf & Htrace
              & Hframe & Hfiles & Hencs & Hres);
        assert (Hfonts : same_fonts w w1)
          by (eapply (insert_slide_same_fonts w w1 i); reflexivity)
    end.
    cbn [clock dirs environ smtp_fault trace store] in *.
    exists r, w', (S done). split; [exact Hloop|].
    split; [cbn [length]; lia|].
    split; [exact Hc|]. split; [exact Hd|]. split; [exact He|].
    split; [exact Hf|]. split.
    { rewrite Htrace, <- app_assoc. f_equal. destruct r; reflexivity. }
    split.
    { intros p Hp. rewrite Hframe.
      - apply lookup_insert_ne. intros Heq. apply (Hp i); [lia|].
        now symmetry.
      - intros j Hj. apply Hp. lia. }
    split.
    { intros [|k] s0 Hk Hs0.
      - cbn in Hs0. injection Hs0 as <-.
        replace (i + Z.of_nat 0) with i by lia.
        rewrite Hframe; [apply lookup_insert_eq|].
        intros j Hj Heq. apply slide_path_inj in Heq. lia.
      - cbn [lookup list_lookup] in Hs0.
        specialize (Hfiles k s0 ltac:(lia) Hs0).
        replace (i + Z.of_nat (S k)) with (i + 1 + Z.of_nat k) by lia.
        rewrite Hfiles. do 2 f_equal. symmetry.
        now apply slide_image_same. }
    split.
    { intros [|k] s0 Hk Hs0.
      - cbn in Hs0. injection Hs0 as <-.
        replace (i + Z.of_nat 0) with i by lia. exact Henc.
      - cbn [lookup list_lookup] in Hs0.
        specialize (Hencs k s0 ltac:(lia) Hs0).
        replace (i + Z.of_nat (S k)) with (i + 1 + Z.of_nat k) by lia.
        rewrite !(font_of_same _ _ _ Hfonts). exact Hencs. }
    destruct r as [files|e].
    + destruct Hres as [-> ->]. split; [reflexivity|].
      rewrite <- app_assoc. reflexivity.
    + destruct Hres as (s0 & Hs0 & Hcause). exists s0.
      split; [exact Hs0|].
      replace (i + Z.of_nat (S done)) with (i + 1 + Z.of_nat done) by lia.
      rewrite !(font_of_same _ _ _ Hfonts). exact Hcause.
Qed.

End Generation.

(** ** One carousel *)

Lemma open_error_slide (w w1 : World) (i : Z) :
  OUT_BASE ∈ dirs w1 -> outdir_of w ∈ dirs w1 ->
  open_error w1 (slide_path (outdir_of w) i) =
  if bool_decide (slide_path (outdir_of w) i ∈ dirs w1)
  then Some (Exn IsADirectoryError
                 (os_error_text 21 "Is a directory"
                                (slide_path (outdir_of w) i)))
  else None.
Proof.
  intros Hbase Hout. unfold open_error. rewrite walk_error_none; [reflexivity|].
  rewrite dir_chain_slide. cbn [removelast].
  intros q Hq. apply elem_of_cons in Hq as [->|Hq]; [exact Hbase|].
  apply list_elem_of_singleton in Hq as ->. exact Hout.
Qed.

Lemma in_dirs_after_makedirs (w : World) (p : string) :
  p <> OUT_BASE -> p <> outdir_of w ->
  p ∈ dirs w ∪ {[OUT_BASE; outdir_of w]} <-> p ∈ dirs w.
Proof. intros H1 H2. set_solver. Qed.

Section Carousel.
Context `{ext : Externals}.

(** The archive step of [generate_carousel], once the base directory is
    there. *)
Lemma make_archive_outdir (w w2 : World) :
  OUT_BASE ∈ dirs w2 ->
  shutil_make_archive (outdir_of w) zip_format (outdir_of w) w2 =
  if bool_decide (zip_of w ∈ dirs w2)
  then (Raise (Exn IsADirectoryError
                   (os_error_text 21 "Is a directory" (zip_of w))), w2)
  else (Ok (zip_path_of w),
        MkWorld (clock w2)
                (<[zip_of w := Zip (archive_members w2 (outdir_of w))]>
                   (store w2))
                (dirs w2) (environ w2) (smtp_fault w2) (trace w2)).
Proof.
  intros Hbase. unfold shutil_make_archive. cbv zeta.
  rewrite parent_dir_outdir. unfold bind at 1, os_path_exists.
  assert (Hex : path_exists w2 OUT_BASE = true).
  { unfold path_exists. rewrite (bool_decide_true (_ ∈ _)) by assumption.
    apply orb_true_r. }
  rewrite Hex, andb_false_r. unfold bind, ret, write_file.
  change (outdir_of w +:+ archive_extension zip_format) with (zip_of w).
  unfold open_error. rewrite dir_chain_zip. cbn [walk_error].
  rewrite (bool_decide_true (OUT_BASE ∈ dirs w2)) by assumption.
  case_bool_decide; reflexivity.
Qed.

(** Everything [generate_carousel] does, for any topic and any world,
    however it ends: [m] calls of [render_slide] have been made and [done]
    slides written. *)
Lemma generate_carousel_spec (topic : Topic.t) (w : World) :
  let slides := get (Topic.slides topic) [] in
  exists (r : res (string * list string * string)) (w' : World)
         (done m : nat),
    generate_carousel topic w = (r, w')
    /\ clock w' = clock w /\ environ w' = environ w
    /\ smtp_fault w' = smtp_fault w
    /\ dirs w ⊆ dirs w'
    /\ dirs w' ⊆ dirs w ∪ {[OUT_BASE; outdir_of w]}
    /\ (done <= m <= length slides)%nat
    /\ trace w' = (trace w ++ take m (calls_of topic w))%list
    /\ (forall p : string,
          p <> zip_of w ->
          (forall j, 1 <= j <= Z.of_nat done ->
                     p <> slide_path (outdir_of w) j) ->
          store w' !! p = store w !! p)
    /\ (forall (k : nat) (s : string),
          (k < done)%nat -> slides !! k = Some s ->
          store w' !! slide_path (outdir_of w) (Z.of_nat k + 1) =
          Some (Png (slide_image w (title_of topic (Z.of_nat k + 1)) s
                                 (cta_for slides (Z.of_nat k + 1))
                                 (Z.of_nat k + 1))))
    /\ (forall (k : nat) (s : string),
          (k < done)%nat -> slides !! k = Some s ->
          first_unencodable (font_of w 56) (font_of w 30) (font_of w 26)
                            (font_of w 18) (title_of topic (Z.of_nat k + 1)) s
                            (cta_for slides (Z.of_nat k + 1))
                            (Z.of_nat k + 1) = None)
    /\ match r with
       | Ok v =>
           v = (outdir_of w,
                map (slide_path (outdir_of w)) (seqZ 1 (len slides)),
                zip_path_of w)
           /\ done = length slides /\ m = length slides
           /\ dirs w' = dirs w ∪ {[OUT_BASE; outdir_of w]}
           /\ (zip_of w ∉ dirs w)
           /\ exists w2 : World,
                store w' = <[zip_of w := Zip (archive_members w2 (outdir_of w))]>
                             (store w2)
                /\ dirs w2 = dirs w'
                /\ store w2 !! zip_of w = store w !! zip_of w
       | Raise e =>
           store w' !! zip_of w = store w !! zip_of w
           /\ ((m = 0%nat
                /\ (exn_cls e = FileExistsError
                    \/ exn_cls e = NotADirectoryError)
                /\ (is_Some (store w !! OUT_BASE)
                    \/ is_Some (store w !! outdir_of w)))
               \/ (m = S done
                   /\ exists s, slides !! done = Some s
                      /\ match first_unencodable
                                 (font_of w 56) (font_of w 30) (font_of w 26)
                                 (font_of w 18)
                                 (title_of topic (Z.of_nat done + 1)) s
                                 (cta_for slides (Z.of_nat done + 1))
                                 (Z.of_nat done + 1) with
                         | Some text =>
                             e = Exn UnicodeEncodeError (encode_error text)
                         | None =>
                             slide_path (outdir_of w) (Z.of_nat done + 1)
                               ∈ dirs w
                             /\ e = Exn IsADirectoryError
                                      (os_error_text 21 "Is a directory"
                                         (slide_path (outdir_of w)
                                                     (Z.of_nat done + 1)))
                         end)
               \/ (m = done /\ done = length slides
                   /\ zip_of w ∈ dirs w
                   /\ e = Exn IsADirectoryError
                            (os_error_text 21 "Is a directory" (zip_of w))))
       end.
Proof.
  intros slides.
  unfold generate_carousel, bind at 1, date_today. cbv zeta.
  change (path_join OUT_BASE ("carousel_" +:+ isoformat (clock w)))
    with (outdir_of w).
  fold slides. unfold bind at 1.
  destruct (makedirs_outdir w)
    as (r1 & w1 & Hmk & Hc1 & Hs1 & He1 & Hf1 & Ht1 & Hsub1 & Hsup1 & Hres1).
  rewrite Hmk. destruct r1 as [[]|e].
  2:{ exists (Raise e), w1, 0%nat, 0%nat. split; [reflexivity|].
      split; [exact Hc1|]. split; [exact He1|]. split; [exact Hf1|].
      split; [exact Hsub1|]. split; [exact Hsup1|]. split; [lia|].
      split; [cbn [take]; now rewrite app_nil_r|].
      split; [intros p _ _; now rewrite Hs1|].
      split; [intros k s Hk; lia|]. split; [intros k s Hk; lia|].
      split; [now rewrite Hs1|]. left. now split. }
  assert (Hbase : OUT_BASE ∈ dirs w1) by (rewrite Hres1; set_solver).
  assert (Hout : outdir_of w ∈ dirs w1) by (rewrite Hres1; set_solver).
  assert (Hfonts1 : same_fonts w w1)
    by (apply same_fonts_store; intros p _; now rewrite Hs1).
  unfold bind at 1.
  destruct (slides_loop_spec topic slides (outdir_of w)
              (slide_path_not_candidate w) slides 1 [] w1)
    as (r2 & w2 & done & Hloop & Hdone & Hc2 & Hd2 & He2 & Hf2 & Ht2 & Hframe
        & Hfiles & Hencs & Hres2).
  rewrite Hloop.
  assert (Hframe' : forall p : string,
             (forall j, 1 <= j <= Z.of_nat done ->
                        p <> slide_path (outdir_of w) j) ->
             store w2 !! p = store w !! p).
  { intros p Hp. rewrite <- Hs1. apply Hframe. intros j Hj. apply Hp. lia. }
  assert (Hfiles' : forall (k : nat) (s : string),
             (k < done)%nat -> slides !! k = Some s ->
             store w2 !! slide_path (outdir_of w) (Z.of_nat k + 1) =
             Some (Png (slide_image w (title_of topic (Z.of_nat k + 1)) s
                                    (cta_for slides (Z.of_nat k + 1))
                                    (Z.of_nat k + 1)))).
  { intros k s Hk Hs. specialize (Hfiles k s Hk Hs).
    replace (1 + Z.of_nat k) with (Z.of_nat k + 1) in Hfiles by lia.
    rewrite Hfiles. do 2 f_equal. symmetry. now apply slide_image_same. }
  assert (Hencs' : forall (k : nat) (s : string),
             (k < done)%nat -> slides !! k = Some s ->
             first_unencodable (font_of w 56) (font_of w 30) (font_of w 26)
                               (font_of w 18) (title_of topic (Z.of_nat k + 1))
                               s (cta_for slides (Z.of_nat k + 1))
                               (Z.of_nat k + 1) = None).
  { intros k s Hk Hs. specialize (Hencs k s Hk Hs).
    replace (1 + Z.of_nat k) with (Z.of_nat k + 1) in Hencs by lia.
    rewrite !(font_of_same _ _ _ Hfonts1). exact Hencs. }
  assert (Hzip2 : store w2 !! zip_of w = store w !! zip_of w).
  { apply Hframe'. intros j _. apply zip_not_slide. }
  destruct r2 as [files|e].
  - destruct Hres2 as [-> ->]. unfold bind at 1.
    rewrite make_archive_outdir by (now rewrite Hd2).
    case_bool_decide as Hzip.
    + exists (Raise (Exn IsADirectoryError
                         (os_error_text 21 "Is a directory" (zip_of w)))),
        w2, (length slides), (length slides).
      split; [reflexivity|].
      split; [congruence|]. split; [congruence|]. split; [congruence|].
      split; [rewrite Hd2; exact Hsub1|].
      split; [rewrite Hd2; exact Hsup1|]. split; [lia|].
      split.
      { rewrite Ht2, Ht1. reflexivity. }
      split; [intros p _ Hp; now apply Hframe'|].
      split; [exact Hfiles'|]. split; [exact Hencs'|].
      split; [exact Hzip2|]. right. right.
      split; [reflexivity|]. split; [reflexivity|]. split; [|reflexivity].
      rewrite Hd2, Hres1 in Hzip.
      apply in_dirs_after_makedirs in Hzip;
        [exact Hzip|apply zip_not_base|apply zip_not_outdir].
    + eexists (Ok _), _, (length slides), (length slides).
      split; [reflexivity|].
      cbn [clock environ smtp_fault dirs trace store].
      split; [congruence|]. split; [congruence|]. split; [congruence|].
      split; [rewrite Hd2; exact Hsub1|].
      split; [rewrite Hd2; exact Hsup1|]. split; [lia|].
      split.
      { rewrite Ht2, Ht1. reflexivity. }
      split.
      { intros p Hzp Hp. rewrite lookup_insert_ne by congruence.
        now apply Hframe'. }
      split.
      { intros k s Hk Hs. rewrite lookup_insert_ne by apply zip_not_slide.
        now apply Hfiles'. }
      split; [exact Hencs'|].
      split; [reflexivity|]. split; [reflexivity|]. split; [reflexivity|].
      split; [now rewrite Hd2|]. split.
      { intros Hin. apply Hzip. rewrite Hd2, Hres1. set_solver. }
      exists w2. split; [reflexivity|]. split; [reflexivity|exact Hzip2].
  - destruct Hres2 as (s & Hs & Hcause).
    exists (Raise e), w2, done, (S done). split; [reflexivity|].
    split; [congruence|]. split; [congruence|]. split; [congruence|].
    split; [rewrite Hd2; exact Hsub1|].
    split; [rewrite Hd2; exact Hsup1|].
    split; [apply lookup_lt_Some in Hs; lia|].
    split.
    { rewrite Ht2, Ht1. reflexivity. }
    split; [intros p _ Hp; now apply Hframe'|].
    split; [exact Hfiles'|]. split; [exact Hencs'|].
    split; [exact Hzip2|]. right. left. split; [reflexivity|].
    exists s. split; [exact Hs|].
    replace (1 + Z.of_nat done) with (Z.of_nat done + 1) in Hcause by lia.
    rewrite <- !(font_of_same _ _ _ Hfonts1) in Hcause.
    destruct (first_unencodable _ _ _ _ _ _ _ _); [exact Hcause|].
    destruct Hcause as (w3 & Hd3 & Hopen).
    rewrite open_error_slide in Hopen by (now rewrite Hd3).
    case_bool_decide as Hin; [|discriminate].
    injection Hopen as <-. split; [|reflexivity].
    rewrite Hd3, Hres1 in Hin.
    apply in_dirs_after_makedirs in Hin;
      [exact Hin|apply slide_not_base|apply slide_not_outdir].
Qed.

(** With fonts and nothing in the way the carousel is made. *)
Lemma generate_carousel_succeeds (topic : Topic.t) (w : World) :
  fonts_load w = true -> clear_for_carousel w ->
  exists v w', generate_carousel topic w = (Ok v, w').
Proof.
  intros Hfonts (Hbase & Hout & Hslides & Hzip).
  destruct (generate_carousel_spec topic w)
    as (r & w' & done & m & Hrun & _ & _ & _ & _ & _ & _ & _ & _ & _ & _
        & Hres).
  destruct r as [v|e]; [eauto|]. exfalso.
  destruct Hres as [_ [(_ & _ & [Hsome|Hsome])
                      |[(_ & s & _ & Hcause)|(_ & _ & Hin & _)]]].
  - rewrite Hbase in Hsome. now destruct Hsome.
  - rewrite Hout in Hsome. now destruct Hsome.
  - rewrite first_unencodable_fonts in Hcause by assumption.
    destruct Hcause as [Hin _]. exact (Hslides _ Hin).
  - now apply Hzip.
Qed.

End Carousel.

Lemma calls_lookup (topic : Topic.t) (slides : list string) (outdir : string)
    (n : nat) (s : string) :
  slides !! n = Some s ->
  zip_with (call_of topic slides outdir) (seqZ 1 (len slides)) slides !! n =
  Some (call_of topic slides outdir (Z.of_nat n + 1) s).
Proof.
  intros Hs. rewrite lookup_zip_with, Hs.
  rewrite lookup_seqZ_lt by (apply lookup_lt_Some in Hs; unfold len; lia).
  cbn. do 2 f_equal. lia.
Qed.

Lemma calls_length (topic : Topic.t) (slides : list string) (outdir : string) :
  length (zip_with (call_of topic slides outdir) (seqZ 1 (len slides)) slides)
  = length slides.
Proof.
  rewrite length_zip_with, length_seqZ. unfold len. lia.
Qed.

(** The call at position [n] of a run of calls that was cut short. *)
Lemma calls_take_lookup (topic : Topic.t) (w : World) (m n : nat) (ev : Event) :
  take m (calls_of topic w) !! n = Some ev ->
  (n < m)%nat
  /\ exists s, get (Topic.slides topic) [] !! n = Some s
       /\ ev = CallRenderSlide (title_of topic (Z.of_nat n + 1)) s
                 (cta_for (get (Topic.slides topic) []) (Z.of_nat n + 1))
                 (Z.of_nat n + 1)
                 (slide_path (outdir_of w) (Z.of_nat n + 1)).
Proof.
  intros Hev. apply lookup_take_Some in Hev as [Hev Hn]. split; [exact Hn|].
  unfold calls_of in Hev.
  destruct (get (Topic.slides topic) [] !! n) as [s|] eqn:Hs.
  - rewrite (calls_lookup _ _ _ _ _ Hs) in Hev. injection Hev as <-.
    exists s. split; [reflexivity|]. apply call_of_eq.
  - apply lookup_ge_None in Hs.
    apply lookup_lt_Some in Hev. rewrite calls_length in Hev. lia.
Qed.

Lemma cta_for_last (slides : list string) (i : Z) :
  (cta_for slides i <> "" <-> i = len slides)
  /\ (cta_for slides i = "" <-> i <> len slides).
Proof.
  unfold cta_for, CTA_TEXT.
  destruct (Z.eqb_spec i (len slides)); split; split; intros;
    try congruence; try discriminate.
Qed.

Lemma strip_prefix_Some (pre s r : string) :
  strip_prefix pre s = Some r <-> s = pre +:+ r.
Proof.
  revert s. induction pre as [|a pre IH]; intros s; cbn [strip_prefix].
  - rewrite string_app_nil_l. split; congruence.
  - rewrite string_app_cons. destruct s as [|b s]; [split; discriminate|].
    destruct (Ascii.eqb_spec a b) as [->|Hne].
    + rewrite IH. split; [now intros ->|]. now intros [= ->].
    + split; [discriminate|]. intros [= <- _]. congruence.
Qed.

Lemma archive_members_spec (w : World) (root name : string) :
  name ∈ archive_members w root <->
  is_Some (store w !! (root +:+ "/" +:+ name))
  \/ exists rel, name = rel +:+ "/" /\ root +:+ "/" +:+ rel ∈ dirs w.
Proof.
  unfold archive_members. rewrite elem_of_app, !list_elem_of_omap. split.
  - intros [(d & Hd & Hname)|([p data] & Hin & Hname)].
    + right. destruct (strip_prefix _ d) as [rel|] eqn:Hrel; [|discriminate].
      cbn in Hname. injection Hname as <-. exists rel. split; [reflexivity|].
      apply strip_prefix_Some in Hrel. rewrite string_app_assoc in Hrel.
      rewrite <- Hrel. now apply elem_of_elements.
    + left. cbn [fst] in Hname. apply strip_prefix_Some in Hname.
      rewrite string_app_assoc in Hname. rewrite <- Hname.
      apply elem_of_map_to_list in Hin. eauto.
  - intros [[data Hdata]|(rel & -> & Hin)].
    + right. exists (root +:+ "/" +:+ name, data).
      split; [now apply elem_of_map_to_list|]. cbn [fst].
      apply strip_prefix_Some. now rewrite string_app_assoc.
    + left. exists (root +:+ "/" +:+ rel).
      split; [now apply elem_of_elements|].
      replace (strip_prefix (root +:+ "/") (root +:+ "/" +:+ rel))
        with (Some rel); [reflexivity|].
      symmetry. apply strip_prefix_Some. now rewrite string_app_assoc.
Qed.

Section CarouselClaims.
Context `{ext : Externals}.


(** Without a font for the footer, no carousel. *)
Lemma generate_carousel_fontless (topic : Topic.t) (w : World) :
  get (Topic.slides topic) [] <> [] ->
  font_loads w 18 = false ->
  exists (e : exn) (w' : World),
    generate_carousel topic w = (Raise e, w')
    /\ store w' = store w
    /\ (store w !! OUT_BASE = None -> store w !! outdir_of w = None ->
        exn_cls e = UnicodeEncodeError
        /\ exists title body cta out,
             trace w' = (trace w ++ [CallRenderSlide title body cta 1 out])%list).
Proof.
  intros Hne Hfont.
  destruct (generate_carousel_spec topic w)
    as (r & w' & done & m & Hrun & _ & _ & _ & _ & _ & Hdm & Htrace
        & Hframe & _ & Hencs & Hres).
  rewrite (font_loads_false _ _ Hfont) in Hencs, Hres.
  assert (Hdone : done = 0%nat).
  { destruct done as [|done]; [reflexivity|]. exfalso.
    destruct (get (Topic.slides topic) []) as [|s0 rest] eqn:Hslides;
      [congruence|].
    specialize (Hencs 0%nat s0 ltac:(lia) eq_refl).
    destruct (first_unencodable_default (font_of w 56) (font_of w 30)
                (font_of w 26) (title_of topic (Z.of_nat 0 + 1)) s0
                (cta_for (s0 :: rest) (Z.of_nat 0 + 1)) (Z.of_nat 0 + 1))
      as [text Htext].
    rewrite Htext in Hencs. discriminate Hencs. }
  subst done. destruct r as [v|e].
  { destruct Hres as (_ & Hlen & _). destruct (get (Topic.slides topic) []);
      [congruence|discriminate Hlen]. }
  destruct Hres as [Hzip Hcause].
  exists e, w'. split; [exact Hrun|]. split.
  { apply map_eq. intros p. destruct (decide (p = zip_of w)) as [->|Hz];
      [exact Hzip|].
    apply Hframe; [exact Hz|]. intros j Hj. lia. }
  intros Hbase Hout.
  destruct Hcause as [(_ & _ & [Hsome|Hsome])
                     |[(-> & s & Hs & Hcause)|(_ & Hlen & _)]].
  - rewrite Hbase in Hsome. now destruct Hsome.
  - rewrite Hout in Hsome. now destruct Hsome.
  - destruct (first_unencodable_default (font_of w 56) (font_of w 30)
                (font_of w 26) (title_of topic (Z.of_nat 0 + 1)) s
                (cta_for (get (Topic.slides topic) []) (Z.of_nat 0 + 1))
                (Z.of_nat 0 + 1))
      as [text Htext].
    rewrite Htext in Hcause. subst e. split; [reflexivity|].
    rewrite Htrace. unfold calls_of.
    destruct (get (Topic.slides topic) []) as [|s0 rest] eqn:Hslides;
      [congruence|].
    rewrite seqZ_len_cons. cbn [zip_with take]. rewrite call_of_eq.
    eexists _, _, _, _. reflexivity.
  - destruct (get (Topic.slides topic) []); [congruence|discriminate Hlen].
Qed.

(** C1 (as the code has it): when no candidate font loads at the size of
    the footer, [generate_carousel] returns no file path at all for a topic
    that has slides: it raises, and the files are as they were, without a
    single image and without the archive.  When no regular file is in the
    way of the output directories, the failure is the [UnicodeEncodeError]
    of the first slide, whose footer the built-in font cannot encode: one
    call of [render_slide] has been made. *)
Theorem generate_carousel_fails_without_fonts (topic : Topic.t) (w : World) :
  get (Topic.slides topic) [] <> [] ->
  font_loads w 18 = false ->
  exists (e : exn) (w' : World),
    generate_carousel topic w = (Raise e, w')
    /\ store w' = store w
    /\ (store w !! OUT_BASE = None -> store w !! outdir_of w = None ->
        exn_cls e = UnicodeEncodeError
        /\ exists title body cta out,
             trace w' = (trace w ++ [CallRenderSlide title body cta 1 out])%list).
Proof. apply generate_carousel_fontless. Qed.

(** C2: for a topic with at least one slide, however [generate_carousel]
    ends, the calls of [render_slide] it has made are all it has added to
    the trace; the call at position n (from 0) is the one for the slide with
    1-based index n+1 and receives a non-empty CTA exactly when n+1 is the
    number of slides, and the empty string otherwise; when the generator
    returns, it has made one call per slide, and the image file of slide i
    carries the CTA badge exactly when i is the number of slides.
    [render_slide] itself, on any arguments, when it returns for a path
    that ends in [.png], has drawn the badge and the CTA text exactly when
    the CTA is not empty (five drawing steps without it, seven with it). *)
Theorem cta_only_on_last_slide (topic : Topic.t) (w : World) :
  get (Topic.slides topic) [] <> [] ->
  let slides := get (Topic.slides topic) [] in
  (exists (r : res (string * list string * string)) (w' : World)
          (calls : list Event),
      generate_carousel topic w = (r, w')
      /\ trace w' = (trace w ++ calls)%list
      /\ (length calls <= length slides)%nat
      /\ (forall (n : nat) (ev : Event), calls !! n = Some ev ->
            exists title body cta out,
              ev = CallRenderSlide title body cta (Z.of_nat n + 1) out
              /\ slides !! n = Some body
              /\ (cta <> "" <-> Z.of_nat n + 1 = len slides)
              /\ (cta = "" <-> Z.of_nat n + 1 <> len slides))
      /\ (forall v, r = Ok v ->
            length calls = length slides
            /\ forall i : Z, 1 <= i <= len slides ->
                 exists img,
                   store w' !! slide_path (outdir_of w) i = Some (Png img)
                   /\ (has_cta_badge img = true <-> i = len slides)))
  /\ (forall (title body cta : string) (i : Z) (out : string) (w0 w1 : World),
        render_slide title body cta i out w0 = (Ok tt, w1) ->
        is_png out = true ->
        exists img : Image,
          store w1 !! out = Some (Png img)
          /\ (has_cta_badge img = false <-> cta = "")
          /\ (draws_text cta img = true <-> cta <> "")
          /\ length (im_ops img) = (if decide (cta = "") then 5 else 7)%nat).
Proof.
  intros Hne slides. split.
  - destruct (generate_carousel_spec topic w)
      as (r & w' & done & m & Hrun & _ & _ & _ & _ & _ & Hdm & Htrace
          & _ & Hfiles & _ & Hres).
    fold slides in Hdm, Hfiles, Hres.
    exists r, w', (take m (calls_of topic w)).
    split; [exact Hrun|]. split; [exact Htrace|]. split.
    { rewrite length_take. lia. }
    split.
    { intros n ev Hev.
      apply calls_take_lookup in Hev as (_ & s & Hs & ->).
      eexists _, _, _, _. split; [reflexivity|]. split; [exact Hs|].
      apply cta_for_last. }
    intros v ->. destruct Hres as (_ & -> & -> & _). split.
    { rewrite length_take. unfold calls_of. rewrite calls_length.
      fold slides. lia. }
    intros i Hi.
    destruct (lookup_lt_is_Some_2 slides (Z.to_nat (i - 1))) as [s Hs].
    { unfold len in Hi. lia. }
    pose proof (lookup_lt_Some _ _ _ Hs) as Hlt.
    specialize (Hfiles (Z.to_nat (i - 1)) s Hlt Hs).
    replace (Z.of_nat (Z.to_nat (i - 1)) + 1) with i in Hfiles by lia.
    eexists. split; [exact Hfiles|].
    rewrite (proj1 (slide_image_badge _ _ _ _ _)), truthy_spec.
    apply cta_for_last.
  - intros title body cta i out w0 w1 Hrun Hpng.
    rewrite (render_slide_png _ _ _ _ _ _ Hpng) in Hrun.
    destruct (first_unencodable _ _ _ _ _ _ _ _); [discriminate Hrun|].
    destruct (open_error w0 out); [discriminate Hrun|].
    injection Hrun as <-. cbn [store]. eexists.
    split; [apply lookup_insert_eq|].
    destruct (slide_image_badge w0 title body cta i) as [-> ->].
    destruct (slide_image_shows w0 title body cta i) as (_ & _ & _ & Hcta).
    destruct (decide (cta = "")) as [->|Hc].
    + split; [now split|]. split; [|reflexivity].
      split; [|congruence]. intros Hdraw. exfalso.
      unfold draws_text, slide_image, slide_ops in Hdraw.
      cbn [truthy String.eqb negb im_ops app existsb] in Hdraw.
      unfold footer_of in Hdraw.
      change ("AI for MSMEs • Slide " +:+ pretty i)
        with (String "A" ("I for MSMEs • Slide " +:+ pretty i)) in Hdraw.
      cbn [String.eqb orb] in Hdraw. discriminate Hdraw.
    + rewrite (proj2 (truthy_spec cta) Hc). split.
      { split; [discriminate|]. intros ->. congruence. }
      split; [|reflexivity]. split; [intros _; exact Hc|exact Hcta].
Qed.

(** C3: for a topic that has a title and at least one slide text, however
    [generate_carousel] ends, the calls of [render_slide] it has made are
    all it has added to the trace; the first of them, for slide 1, receives
    the topic's title, and the call at position i-1, for slide i >= 2,
    receives the generated title "Slide i".  When the generator returns, it
    has made one call per slide text, so every slide from 1 to K has got
    its title. *)
Theorem slide_titles (topic : Topic.t) (t : string) (w : World) :
  Topic.title topic = Some t ->
  get (Topic.slides topic) [] <> [] ->
  let slides := get (Topic.slides topic) [] in
  exists (r : res (string * list string * string)) (w' : World)
         (calls : list Event),
    generate_carousel topic w = (r, w')
    /\ trace w' = (trace w ++ calls)%list
    /\ (length calls <= length slides)%nat
    /\ (forall ev, calls !! 0%nat = Some ev ->
          exists body cta out, ev = CallRenderSlide t body cta 1 out)
    /\ (forall (i : Z) (ev : Event),
          2 <= i -> calls !! Z.to_nat (i - 1) = Some ev ->
          exists body cta out,
            ev = CallRenderSlide ("Slide " +:+ pretty i) body cta i out)
    /\ (forall v, r = Ok v -> length calls = length slides).
Proof.
  intros Htitle Hne slides.
  destruct (generate_carousel_spec topic w)
    as (r & w' & done & m & Hrun & _ & _ & _ & _ & _ & Hdm & Htrace
        & _ & _ & _ & Hres).
  fold slides in Hdm, Hres.
  exists r, w', (take m (calls_of topic w)).
  split; [exact Hrun|]. split; [exact Htrace|]. split.
  { rewrite length_take. lia. }
  split.
  { intros ev Hev. apply calls_take_lookup in Hev as (_ & s & Hs & ->).
    unfold title_of. cbn [Z.of_nat Z.add Z.eqb Pos.eqb].
    rewrite Htitle. cbn [get default]. eexists _, _, _. reflexivity. }
  split.
  { intros i ev Hi Hev. apply calls_take_lookup in Hev as (_ & s & Hs & ->).
    replace (Z.of_nat (Z.to_nat (i - 1)) + 1) with i by lia.
    unfold title_of. destruct (Z.eqb_spec i 1) as [->|_]; [lia|].
    eexists _, _, _. reflexivity. }
  intros v ->. destruct Hres as (_ & _ & -> & _).
  rewrite length_take. unfold calls_of. rewrite calls_length.
  fold slides. lia.
Qed.


End CarouselClaims.

(** ** Captions *)

(** C4 (as the code has it): when the short caption is absent the short-form
    caption is the one of the same topic with the title (or the empty string
    when the title is absent too) as its short caption; when the long caption
    is absent the long-form caption is the one of the same topic with the
    empty string as its long caption, the title staying its first line; the
    short caption has no part in the long form nor the long caption in the
    short form. *)
Theorem compose_captions_fallbacks (topic : Topic.t) :
  (Topic.short_caption topic = None ->
     (compose_captions topic).2 =
     (compose_captions
        (with_short_caption (get (Topic.title topic) "") topic)).2)
  /\ (Topic.long_caption topic = None ->
        (compose_captions topic).1 =
        (compose_captions (with_long_caption "" topic)).1)
  /\ (exists rest, (compose_captions topic).1 =
                   get (Topic.title topic) "" +:+ nl +:+ nl +:+ rest)
  /\ (forall v, (compose_captions (with_short_caption v topic)).1 =
                (compose_captions topic).1)
  /\ (forall v, (compose_captions (with_long_caption v topic)).2 =
                (compose_captions topic).2).
Proof.
  destruct topic as [t sl sc lc hs]. unfold compose_captions.
  cbn [Topic.title Topic.slides Topic.short_caption Topic.long_caption
       Topic.hashtags with_short_caption with_long_caption fst snd].
  split; [intros ->; reflexivity|].
  split; [intros ->; reflexivity|].
  split; [eexists; reflexivity|].
  split; reflexivity.
Qed.

(** C4, the claim as worded, fails: with the long caption absent the
    long-form caption of the topic titled "T" is not the one it would have
    with "T" as its long caption. *)
Lemma long_caption_fallback_is_not_title :
  Topic.long_caption demo_topic = None
  /\ (compose_captions demo_topic).1 <>
     (compose_captions
        (with_long_caption (get (Topic.title demo_topic) "") demo_topic)).1.
Proof. split; [reflexivity|]. vm_compute. discriminate. Qed.

(** ** The run *)

Section Run.
Context `{ext : Externals}.

(** [load_topics] either returns the topics and leaves the world alone, or
    raises after logging; it never touches files or directories. *)
Lemma load_topics_cases (path : string) (w : World) :
  (exists topics, load_topics path w = (Ok topics, w)
                  /\ path_exists w path = true)
  \/ (exists e msg, load_topics path w =
        (Raise e,
         MkWorld (clock w) (store w) (dirs w) (environ w) (smtp_fault w)
                 (trace w ++ [Log "ERROR" msg])))
  \/ (exists e, load_topics path w = (Raise e, w)).
Proof.
  unfold load_topics, bind, os_path_exists.
  destruct (path_exists w path) eqn:Hex; cbn [negb].
  - unfold read_text. destruct (store w !! path) as [[s|img|fmt img|f|ms]|].
    + destruct (json_loads s) as [e|topics].
      * right. left. eexists _, _. reflexivity.
      * left. eexists. split; reflexivity.
    + right. right. eexists. reflexivity.
    + right. right. eexists. reflexivity.
    + right. right. eexists. reflexivity.
    + right. right. eexists. reflexivity.
    + right. right. eexists. reflexivity.
  - right. left. eexists _, _. reflexivity.
Qed.

Lemma load_topics_ok (path : string) (w w1 : World) (topics : list Topic.t) :
  load_topics path w = (Ok topics, w1) -> w1 = w.
Proof.
  intros Hload.
  destruct (load_topics_cases path w)
    as [(ts & H1 & _) | [(e & msg & H1) | (e & H1)]];
    rewrite H1 in Hload; congruence.
Qed.

Lemma mod_index_in_range {A} (l : list A) (a : Z) :
  l <> [] -> 0 <= a mod len l < len l.
Proof.
  intros Hne. apply Z.mod_pos_bound. unfold len.
  destruct l; [congruence|]. cbn [length]. lia.
Qed.

Lemma py_getitem_in_range {A} (l : list A) (i : Z) (w : World) :
  0 <= i < len l ->
  exists a, l !! Z.to_nat i = Some a /\ py_getitem l i w = (Ok a, w).
Proof.
  intros Hi. unfold py_getitem.
  assert (Hpos : (i <? 0) = false) by lia.
  destruct (lookup_lt_is_Some_2 l (Z.to_nat i)) as [a Ha].
  { unfold len in Hi. lia. }
  exists a. rewrite Hpos. cbv beta iota zeta. rewrite Hpos, Ha.
  split; reflexivity.
Qed.

End Run.

Lemma calls_not_email (topic : Topic.t) (slides : list string) (outdir : string)
    (l : list Z) (k : list string) :
  Forall (fun ev => is_email_event ev = false)
         (zip_with (call_of topic slides outdir) l k).
Proof.
  revert k. induction l as [|i l IH]; intros [|s k]; cbn [zip_with];
    constructor; [reflexivity|apply IH].
Qed.

Lemma calls_taken_not_email (topic : Topic.t) (w : World) (m : nat) :
  Forall (fun ev => is_email_event ev = false) (take m (calls_of topic w)).
Proof. apply Forall_take, calls_not_email. Qed.

Lemma report_not_email `{ext : Externals} (topic : Topic.t) (w : World) :
  Forall (fun ev => is_email_event ev = false) (report_of topic w).
Proof. unfold report_of. repeat constructor. Qed.


Section RunLemmas.
Context `{ext : Externals}.

Lemma main_load_fails (flag : bool) (w w1 : World) (e : exn) :
  load_topics "topics.json" w = (Raise e, w1) -> main flag w = (Raise e, w1).
Proof. intros Hload. unfold main, bind at 1. now rewrite Hload. Qed.

Lemma main_no_topics (flag : bool) (w w1 : World) :
  load_topics "topics.json" w = (Ok [], w1) ->
  main flag w =
  (Raise (Exn ZeroDivisionError "integer modulo by zero"), w).
Proof.
  intros Hload. pose proof (load_topics_ok _ _ _ _ Hload) as ->.
  unfold main, bind at 1. rewrite Hload. reflexivity.
Qed.

Lemma len_nonzero {A} (l : list A) : l <> [] -> (len l =? 0) = false.
Proof.
  intros Hne. apply Z.eqb_neq. unfold len. destruct l; [congruence|].
  cbn [length]. lia.
Qed.

(** Once the topics are loaded, the run is the run for the topic at the day
    ordinal modulo the number of topics. *)
Lemma main_selects (flag : bool) (w w1 : World) (topics : list Topic.t) :
  load_topics "topics.json" w = (Ok topics, w1) ->
  topics <> [] ->
  exists topic : Topic.t,
    topics !! Z.to_nat (toordinal (clock w) mod len topics) = Some topic
    /\ main flag w = main_for flag topic w.
Proof.
  intros Hload Hne.
  pose proof (load_topics_ok _ _ _ _ Hload) as ->.
  pose proof (mod_index_in_range topics (toordinal (clock w)) Hne) as Hidx.
  destruct (py_getitem_in_range topics _ w Hidx) as (topic & Hlook & Hget).
  exists topic. split; [exact Hlook|].
  unfold main. unfold bind at 1. rewrite Hload.
  unfold bind at 1, date_today. unfold bind at 1, py_mod.
  rewrite (len_nonzero _ Hne).
  unfold ret at 1. unfold bind at 1. rewrite Hget. reflexivity.
Qed.

Lemma index_expr_value (topics : list Topic.t) (w : World) :
  topics <> [] ->
  index_expr topics w = (Ok (toordinal (clock w) mod len topics), w).
Proof.
  intros Hne. unfold index_expr, bind, date_today, py_mod.
  now rewrite (len_nonzero _ Hne).
Qed.

(** What [generate_carousel] returns when it returns. *)
Lemma generate_carousel_value (topic : Topic.t) (w w1 : World)
    (v : string * list string * string) :
  generate_carousel topic w = (Ok v, w1) ->
  v = (outdir_of w,
       map (slide_path (outdir_of w))
           (seqZ 1 (len (get (Topic.slides topic) []))),
       zip_path_of w)
  /\ clock w1 = clock w /\ environ w1 = environ w
  /\ smtp_fault w1 = smtp_fault w
  /\ trace w1 = (trace w ++ calls_of topic w)%list.
Proof.
  intros Hrun.
  destruct (generate_carousel_spec topic w)
    as (r & w' & done & m & Hrun' & Hc & He & Hf & _ & _ & _ & Htrace
        & _ & _ & _ & Hres).
  rewrite Hrun in Hrun'. injection Hrun' as <- <-.
  destruct Hres as (-> & _ & -> & _).
  repeat split; try assumption.
  rewrite Htrace. f_equal. apply firstn_all2.
  unfold calls_of. rewrite calls_length. reflexivity.
Qed.

(** How [generate_carousel] leaves the trace, however it ends. *)
Lemma generate_carousel_trace (topic : Topic.t) (w w1 : World)
    (r : res (string * list string * string)) :
  generate_carousel topic w = (r, w1) ->
  exists m : nat, trace w1 = (trace w ++ take m (calls_of topic w))%list.
Proof.
  intros Hrun.
  destruct (generate_carousel_spec topic w)
    as (r' & w' & done & m & Hrun' & _ & _ & _ & _ & _ & _ & Htrace & _).
  rewrite Hrun in Hrun'. injection Hrun' as <- <-. eauto.
Qed.

Lemma main_for_raise (flag : bool) (topic : Topic.t) (w w1 : World) (e : exn) :
  generate_carousel topic w = (Raise e, w1) ->
  main_for flag topic w = (Raise e, w1).
Proof. intros H. unfold main_for, bind at 1. now rewrite H. Qed.

Lemma main_for_false (topic : Topic.t) (w w1 : World)
    (v : string * list string * string) :
  generate_carousel topic w = (Ok v, w1) ->
  main_for false topic w = (Ok tt, logged w1 (report_of topic w)).
Proof.
  intros Hgen.
  destruct (generate_carousel_value _ _ _ _ Hgen) as (-> & _).
  unfold main_for. unfold bind at 1. rewrite Hgen.
  unfold compose_captions, report_of, logged, bind, logging_info, emit, ret.
  cbv beta iota zeta. cbn [clock store dirs environ smtp_fault trace fst snd].
  rewrite <- !app_assoc. reflexivity.
Qed.

Lemma main_for_unset (topic : Topic.t) (w w1 : World)
    (v : string * list string * string) :
  generate_carousel topic w = (Ok v, w1) ->
  email_configured w = false ->
  main_for true topic w =
  (Raise (Exn EnvironmentError "Missing email env vars."),
   logged w1
     (report_of topic w ++
      [Log "ERROR" "Missing one of GMAIL_USER / GMAIL_APP_PASSWORD / RECIPIENT (set as GitHub Secrets). Aborting email send."])).
Proof.
  intros Hgen Hmissing.
  destruct (generate_carousel_value _ _ _ _ Hgen) as (-> & _ & Henv & _).
  unfold main_for. unfold bind at 1. rewrite Hgen.
  unfold compose_captions, report_of, logged, bind, logging_info,
    logging_error, emit, environ_get, raise.
  cbv beta iota zeta. cbn [clock store dirs environ smtp_fault trace fst snd].
  unfold email_configured in Hmissing.
  rewrite <- Henv in Hmissing. rewrite Hmissing. cbn [negb].
  cbn [clock store dirs environ smtp_fault trace].
  rewrite <- !app_assoc. reflexivity.
Qed.


(** A run with the flag and without a complete email configuration. *)
Lemma run_without_email_config (w : World) :
  email_configured w = false ->
  exists (e : exn) (w' : World) (evs : list Event),
    main true w = (Raise e, w')
    /\ (script true w).1 = 1
    /\ trace w' = (trace w ++ evs)%list
    /\ Forall (fun ev => is_email_event ev = false) evs
    /\ match main false w with
       | (Ok _, w0) =>
           e = Exn EnvironmentError "Missing email env vars."
           /\ trace w' =
              (trace w0 ++
               [Log "ERROR" "Missing one of GMAIL_USER / GMAIL_APP_PASSWORD / RECIPIENT (set as GitHub Secrets). Aborting email send."])%list
       | (Raise e0, w0) => e = e0 /\ w' = w0
       end.
Proof.
  intros Hcheck.
  assert (Hexit : forall e w', main true w = (Raise e, w') ->
                               (script true w).1 = 1).
  { intros e w' Hm. unfold script. rewrite Hm. reflexivity. }
  destruct (load_topics_cases "topics.json" w)
    as [(topics & Hload & _) | [(e & msg & Hload) | (e & Hload)]].
  - destruct topics as [|t0 ts].
    + pose proof (main_no_topics true w w Hload) as Htrue.
      pose proof (main_no_topics false w w Hload) as Hfalse.
      eexists _, _, []. split; [exact Htrue|]. split; [exact (Hexit _ _ Htrue)|].
      split; [now rewrite app_nil_r|]. split; [constructor|].
      rewrite Hfalse. split; reflexivity.
    + destruct (main_selects true w w (t0 :: ts) Hload)
        as (topic & Hlook & Htrue); [discriminate|].
      destruct (main_selects false w w (t0 :: ts) Hload)
        as (topic' & Hlook' & Hfalse); [discriminate|].
      assert (topic' = topic) as -> by congruence.
      destruct (generate_carousel topic w) as [[v|e] w1] eqn:Hgen.
      * destruct (generate_carousel_value _ _ _ _ Hgen)
          as (_ & _ & _ & _ & Htrace).
        rewrite (main_for_unset _ _ _ _ Hgen Hcheck) in Htrue.
        rewrite (main_for_false _ _ _ _ Hgen) in Hfalse.
        eexists _, _, _. split; [exact Htrue|].
        split; [exact (Hexit _ _ Htrue)|].
        cbn [logged trace]. rewrite Htrace. split.
        { rewrite <- app_assoc. reflexivity. }
        split.
        { apply Forall_app. split; [apply calls_not_email|].
          apply Forall_app. split; [apply report_not_email|].
          repeat constructor. }
        rewrite Hfalse. cbn [logged trace]. split; [reflexivity|].
        rewrite Htrace. now rewrite <- !app_assoc.
      * destruct (generate_carousel_trace _ _ _ _ Hgen) as [m Htrace].
        rewrite (main_for_raise _ _ _ _ _ Hgen) in Htrue.
        rewrite (main_for_raise _ _ _ _ _ Hgen) in Hfalse.
        exists e, w1, (take m (calls_of topic w)).
        split; [exact Htrue|]. split; [exact (Hexit _ _ Htrue)|].
        split; [exact Htrace|]. split; [apply calls_taken_not_email|].
        rewrite Hfalse. split; reflexivity.
  - pose proof (main_load_fails true _ _ _ Hload) as Htrue.
    pose proof (main_load_fails false _ _ _ Hload) as Hfalse.
    eexists _, _, _. split; [exact Htrue|]. split; [exact (Hexit _ _ Htrue)|].
    cbn [trace]. split; [reflexivity|]. split; [repeat constructor|].
    rewrite Hfalse. split; reflexivity.
  - pose proof (main_load_fails true _ _ _ Hload) as Htrue.
    pose proof (main_load_fails false _ _ _ Hload) as Hfalse.
    eexists _, _, []. split; [exact Htrue|]. split; [exact (Hexit _ _ Htrue)|].
    split; [now rewrite app_nil_r|]. split; [constructor|].
    rewrite Hfalse. split; reflexivity.
Qed.

End RunLemmas.

Section RunClaims.
Context `{ext : Externals}.



(** C6: when [topics.json] does not exist, [main] raises
    [FileNotFoundError] and the process exits with status 1; no directory
    has been created and no file written, the run only logs two errors. *)
Theorem missing_topics_file_aborts (flag : bool) (w : World) :
  path_exists w "topics.json" = false ->
  exists w1 w2 : World,
    main flag w = (Raise (Exn FileNotFoundError "topics.json missing."), w1)
    /\ script flag w = (1, w2)
    /\ dirs w2 = dirs w
    /\ store w2 = store w
    /\ trace w2 =
       (trace w ++
        [ Log "ERROR" "topics.json missing in repo root. Create it and commit.";
          Log "ERROR" "Failed: topics.json missing." ])%list.
Proof.
  intros Hmissing.
  assert (Hload : load_topics "topics.json" w =
                  (Raise (Exn FileNotFoundError "topics.json missing."),
                   (logging_error
                      "topics.json missing in repo root. Create it and commit."
                      w).2)).
  { unfold load_topics, bind, os_path_exists. rewrite Hmissing. reflexivity. }
  eexists _, _. split; [exact (main_load_fails flag _ _ _ Hload)|].
  unfold script. rewrite (main_load_fails flag _ _ _ Hload).
  cbn [logging_error emit snd exn_msg clock store dirs environ smtp_fault trace].
  split; [reflexivity|]. split; [reflexivity|]. split; [reflexivity|].
  now rewrite <- app_assoc.
Qed.

(** C7: when email delivery is requested and one of GMAIL_USER,
    GMAIL_APP_PASSWORD and RECIPIENT is unset, the run raises and the
    process exits with status 1; nothing the run adds to the trace is a call
    of [send_email] or an SMTP step.  If the same run without the flag
    succeeds, the failure is the error "Missing email env vars.", raised
    right after the error record that names the three variables; otherwise
    it is the failure the run has without the flag. *)
Theorem email_config_missing_aborts_before_smtp (w : World) :
  environ w !! "GMAIL_USER" = None
  \/ environ w !! "GMAIL_APP_PASSWORD" = None
  \/ environ w !! "RECIPIENT" = None ->
  exists (e : exn) (w' : World) (evs : list Event),
    main true w = (Raise e, w')
    /\ (script true w).1 = 1
    /\ trace w' = (trace w ++ evs)%list
    /\ Forall (fun ev => is_email_event ev = false) evs
    /\ match main false w with
       | (Ok _, w0) =>
           e = Exn EnvironmentError "Missing email env vars."
           /\ trace w' =
              (trace w0 ++
               [Log "ERROR" "Missing one of GMAIL_USER / GMAIL_APP_PASSWORD / RECIPIENT (set as GitHub Secrets). Aborting email send."])%list
       | (Raise e0, w0) => e = e0 /\ w' = w0
       end.
Proof.
  intros Hunset. apply run_without_email_config. unfold email_configured.
  destruct Hunset as [-> | [-> | ->]]; cbn [truthy_opt];
    rewrite ?andb_false_r; reflexivity.
Qed.

(** C10: when the loaded topic list is empty the run raises
    [ZeroDivisionError] at the selection of the topic, before anything is
    created or written, and the process exits with status 1; the modulo of
    the selection succeeds exactly when the topic list is not empty. *)
Theorem empty_topic_list_raises_zero_division (flag : bool) (w w1 : World) :
  load_topics "topics.json" w = (Ok [], w1) ->
  (exists msg : string,
      main flag w = (Raise (Exn ZeroDivisionError msg), w)
      /\ script flag w =
         (1, MkWorld (clock w) (store w) (dirs w) (environ w) (smtp_fault w)
                     (trace w ++ [Log "ERROR" ("Failed: " +:+ msg)])))
  /\ (forall (topics : list Topic.t) (w0 : World),
        (exists idx, index_expr topics w0 = (Ok idx, w0)) <-> topics <> []).
Proof.
  intros Hload. split.
  - eexists. split; [exact (main_no_topics flag w w1 Hload)|].
    unfold script. rewrite (main_no_topics flag w w1 Hload). reflexivity.
  - intros topics w0. unfold index_expr, bind, date_today, py_mod.
    destruct topics as [|t0 ts].
    + cbn. split; [intros [idx Hidx]; discriminate Hidx|congruence].
    + replace (len (t0 :: ts) =? 0) with false
        by (symmetry; apply Z.eqb_neq; unfold len; cbn [length]; lia).
      split; [discriminate|]. intros _. eexists. reflexivity.
Qed.

(** X1: [load_topics] returns a topic list exactly when the path holds a
    text that [json.loads] accepts as that list; it then logs nothing and
    leaves the world as it was. *)
Theorem load_topics_returns_iff (path : string) (w w' : World)
    (topics : list Topic.t) :
  load_topics path w = (Ok topics, w')
  <-> w' = w /\ exists s, store w !! path = Some (Text s)
                          /\ json_loads s = inr topics.
Proof.
  split.
  - intros Hload. pose proof (load_topics_ok _ _ _ _ Hload) as ->.
    split; [reflexivity|].
    unfold load_topics, bind, os_path_exists, read_text in Hload.
    destruct (path_exists w path); cbn [negb] in Hload; [|discriminate Hload].
    destruct (store w !! path) as [[s|img|fmt img|f|ms]|];
      try discriminate Hload.
    exists s. split; [reflexivity|].
    destruct (json_loads s) as [e|ts]; [discriminate Hload|].
    cbv in Hload. congruence.
  - intros [-> (s & Hs & Hjson)].
    unfold load_topics, bind, os_path_exists, read_text, path_exists.
    rewrite Hs. rewrite bool_decide_true by eauto. cbn [orb negb].
    rewrite Hs, Hjson. reflexivity.
Qed.

(** X2: when [topics.json] holds text that is not valid JSON, the run logs
    that the file is not valid JSON, raises the decoder's error again, and
    the process exits with status 1 after logging the failure; no directory
    is created and no file written. *)
Theorem malformed_topics_file_aborts (flag : bool) (w : World) (s e : string) :
  store w !! "topics.json" = Some (Text s) ->
  json_loads s = inl e ->
  exists w1 w2 : World,
    main flag w = (Raise (Exn JSONDecodeError e), w1)
    /\ script flag w = (1, w2)
    /\ dirs w2 = dirs w
    /\ store w2 = store w
    /\ trace w2 =
       (trace w ++ [ Log "ERROR" ("topics.json is not valid JSON: " +:+ e);
                     Log "ERROR" ("Failed: " +:+ e) ])%list.
Proof.
  intros Hs Hjson.
  assert (Hload : load_topics "topics.json" w =
                  (Raise (Exn JSONDecodeError e),
                   (logging_error ("topics.json is not valid JSON: " +:+ e) w).2)).
  { unfold load_topics, bind, os_path_exists, read_text, path_exists.
    rewrite Hs. rewrite bool_decide_true by eauto. cbn [orb negb].
    rewrite Hs, Hjson. reflexivity. }
  eexists _, _. split; [exact (main_load_fails flag _ _ _ Hload)|].
  unfold script. rewrite (main_load_fails flag _ _ _ Hload).
  cbn [logging_error emit snd exn_msg clock store dirs environ smtp_fault trace].
  split; [reflexivity|]. split; [reflexivity|]. split; [reflexivity|].
  now rewrite <- app_assoc.
Qed.

(** X3: a run without the email flag never calls [send_email] and never
    takes an SMTP step, whatever the world and however the run ends. *)
Theorem no_flag_no_email (w : World) :
  exists (r : res unit) (w' : World) (evs : list Event),
    main false w = (r, w')
    /\ trace w' = (trace w ++ evs)%list
    /\ Forall (fun ev => is_email_event ev = false) evs.
Proof.
  destruct (load_topics_cases "topics.json" w)
    as [(topics & Hload & _) | [(e & msg & Hload) | (e & Hload)]].
  - destruct topics as [|t0 ts].
    + eexists _, _, []. split; [exact (main_no_topics false w w Hload)|].
      split; [now rewrite app_nil_r|constructor].
    + destruct (main_selects false w w (t0 :: ts) Hload)
        as (topic & _ & Hmain); [discriminate|].
      destruct (generate_carousel topic w) as [[v|e] w1] eqn:Hgen.
      * destruct (generate_carousel_value _ _ _ _ Hgen)
          as (_ & _ & _ & _ & Htrace).
        rewrite (main_for_false _ _ _ _ Hgen) in Hmain.
        eexists _, _, _. split; [exact Hmain|]. cbn [logged trace].
        rewrite Htrace. split; [now rewrite <- app_assoc|].
        apply Forall_app. split; [apply calls_not_email|].
        apply report_not_email.
      * destruct (generate_carousel_trace _ _ _ _ Hgen) as [m Htrace].
        rewrite (main_for_raise _ _ _ _ _ Hgen) in Hmain.
        eexists _, _, _. split; [exact Hmain|]. split; [exact Htrace|].
        apply calls_taken_not_email.
  - eexists _, _, _. split; [exact (main_load_fails false _ _ _ Hload)|].
    cbn [trace]. split; [reflexivity|repeat constructor].
  - eexists _, _, []. split; [exact (main_load_fails false _ _ _ Hload)|].
    split; [now rewrite app_nil_r|constructor].
Qed.


(** X5: a variable that is set to the empty string counts as missing: with
    the email flag and one of the three variables set to [''], the run ends
    as it does when the variable is unset: it raises and exits with status
    1 without a call of [send_email] or an SMTP step; when the same run
    without the flag succeeds, the failure is "Missing email env vars.",
    raised right after the error record that names the variables. *)
Theorem empty_email_variable_aborts (w : World) :
  environ w !! "GMAIL_USER" = Some ""
  \/ environ w !! "GMAIL_APP_PASSWORD" = Some ""
  \/ environ w !! "RECIPIENT" = Some "" ->
  exists (e : exn) (w' : World) (evs : list Event),
    main true w = (Raise e, w')
    /\ (script true w).1 = 1
    /\ trace w' = (trace w ++ evs)%list
    /\ Forall (fun ev => is_email_event ev = false) evs
    /\ match main false w with
       | (Ok _, w0) =>
           e = Exn EnvironmentError "Missing email env vars."
           /\ trace w' =
              (trace w0 ++
               [Log "ERROR" "Missing one of GMAIL_USER / GMAIL_APP_PASSWORD / RECIPIENT (set as GitHub Secrets). Aborting email send."])%list
       | (Raise e0, w0) => e = e0 /\ w' = w0
       end.
Proof.
  intros Hempty. apply run_without_email_config. unfold email_configured.
  destruct Hempty as [-> | [-> | ->]];
    cbn [truthy_opt truthy String.eqb negb];
    rewrite ?andb_false_r; reflexivity.
Qed.

End RunClaims.

(** ** The rotation of the topics *)

(** X16: from one day to the next the selected index advances by one and
    wraps around at the number of topics: if the day ordinal of a second run
    is one more than that of a first, and the first selects index i, the
    second selects (i + 1) modulo the number of topics. *)
Theorem next_day_selects_next_topic (topics : list Topic.t) (wa wb : World)
    (i : Z) :
  topics <> [] ->
  toordinal (clock wb) = toordinal (clock wa) + 1 ->
  index_expr topics wa = (Ok i, wa) ->
  index_expr topics wb = (Ok ((i + 1) mod len topics), wb).
Proof.
  intros Hne Hnext Ha.
  rewrite (index_expr_value topics wa Hne) in Ha. injection Ha as <-.
  rewrite (index_expr_value topics wb Hne), Hnext.
  assert (Hlen : len topics <> 0).
  { unfold len. destruct topics; [congruence|]. cbn [length]. lia. }
  now rewrite Z.add_mod_idemp_l.
Qed.

(** X17: every topic gets its turn: in any window of as many consecutive
    days as there are topics, starting at any day ordinal, each index of the
    list is the one selected on one of the days. *)
Theorem every_topic_has_its_day (topics : list Topic.t) (start i : Z) :
  topics <> [] ->
  0 <= i < len topics ->
  exists k : Z,
    0 <= k < len topics
    /\ forall w : World, toordinal (clock w) = start + k ->
                         index_expr topics w = (Ok i, w).
Proof.
  intros Hne Hi. exists ((i - start) mod len topics).
  split; [apply Z.mod_pos_bound; lia|].
  intros w Hw. rewrite (index_expr_value topics w Hne), Hw.
  rewrite Z.add_mod_idemp_r by lia.
  replace (start + (i - start)) with i by lia.
  now rewrite Z.mod_small.
Qed.

(** ** Sending the mail *)




Section Mail.
Context `{ext : Externals}.

Lemma attach_loop_ok (attachments : list string) (datas : list FileData)
    (w : World) :
  Forall2 (fun p d => store w !! p = Some d) attachments datas ->
  Forall (fun p => header_error "filename" (basename p) = None) attachments ->
  forall msg : EmailMessage,
    attach_loop msg attachments w =
    (Ok (MkEmail (msg_from msg) (msg_to msg) (msg_subject msg)
                 (msg_content msg)
                 (msg_attachments msg ++ zip (map basename attachments) datas)),
     w).
Proof.
  induction 1 as [|p d ps ds Hp _ IH]; intros Hnames msg.
  - cbn. rewrite app_nil_r. now destruct msg.
  - apply Forall_cons in Hnames as [Hname Hnames].
    cbn [attach_loop]. unfold bind at 1, read_bytes. rewrite Hp.
    unfold bind at 1, set_header. rewrite Hname. unfold ret at 1.
    rewrite (IH Hnames).
    cbn [msg_from msg_to msg_subject msg_content msg_attachments map zip
         zip_with].
    now rewrite <- app_assoc.
Qed.


(** The SMTP session of [send_email], step by step. *)
Lemma session_run (user app_password : string) (msg : EmailMessage)
    (w : World) :
  smtp_session "smtp.gmail.com" 465
    (run smtp_step AtLogin (SmtpLogin user app_password);
     smtp_step AtSend (SmtpSendMessage msg)) w =
  match smtp_fault w AtConnect with
  | Some e => (Raise e, logged w [SmtpConnect "smtp.gmail.com" 465])
  | None =>
      match smtp_fault w AtLogin with
      | Some e =>
          (Raise (default e (quit_error w)),
           logged w [ SmtpConnect "smtp.gmail.com" 465;
                      SmtpLogin user app_password; SmtpQuit ])
      | None =>
          match smtp_fault w AtSend with
          | Some e =>
              (Raise (default e (quit_error w)),
               logged w [ SmtpConnect "smtp.gmail.com" 465;
                          SmtpLogin user app_password;
                          SmtpSendMessage msg; SmtpQuit ])
          | None =>
              (match quit_error w with
               | Some e => Raise e
               | None => Ok tt
               end,
               logged w [ SmtpConnect "smtp.gmail.com" 465;
                          SmtpLogin user app_password;
                          SmtpSendMessage msg; SmtpQuit ])
          end
      end
  end.
Proof.
  unfold smtp_session, smtp_step, smtp_quit, bind, emit, quit_error, logged.
  cbn [smtp_fault clock store dirs environ trace].
  destruct (smtp_fault w AtConnect) as [e0|]; [reflexivity|].
  cbn [smtp_fault clock store dirs environ trace].
  destruct (smtp_fault w AtLogin) as [e1|].
  { cbn [smtp_fault clock store dirs environ trace].
    destruct (smtp_fault w AtQuit) as [e3|];
      [destruct e3 as [[] msg3]|];
      cbn [exn_cls default from_option id]; rewrite <- ?app_assoc;
      reflexivity. }
  cbn [smtp_fault clock store dirs environ trace].
  destruct (smtp_fault w AtSend) as [e2|].
  { cbn [smtp_fault clock store dirs environ trace].
    destruct (smtp_fault w AtQuit) as [e3|];
      [destruct e3 as [[] msg3]|];
      cbn [exn_cls default from_option id]; rewrite <- ?app_assoc;
      reflexivity. }
  cbn [smtp_fault clock store dirs environ trace].
  destruct (smtp_fault w AtQuit) as [e3|];
    [destruct e3 as [[] msg3]|];
    cbn [exn_cls]; rewrite <- ?app_assoc; reflexivity.
Qed.

(** [send_email] with headers that pass and attachments that can be read
    is its SMTP session with the message built. *)
Lemma send_email_session
    (user app_password recipient subject body : string)
    (attachments : list string) (datas : list FileData) (w : World) :
  header_error "From" user = None ->
  header_error "To" recipient = None ->
  header_error "Subject" subject = None ->
  Forall2 (fun p d => store w !! p = Some d) attachments datas ->
  Forall (fun p => header_error "filename" (basename p) = None) attachments ->
  send_email user app_password recipient subject body attachments w =
  smtp_session "smtp.gmail.com" 465
    (run smtp_step AtLogin (SmtpLogin user app_password);
     smtp_step AtSend
       (SmtpSendMessage
          (MkEmail user recipient subject body
                   (zip (map basename attachments) datas))))
    (logged w [CallSendEmail user app_password recipient subject body
                             attachments]).
Proof.
  intros Hfrom Hto Hsubject Hfiles Hnames.
  unfold send_email, bind at 1, emit.
  unfold bind at 1, set_header at 1. rewrite Hfrom. unfold ret at 1.
  unfold bind at 1, set_header at 1. rewrite Hto. unfold ret at 1.
  unfold bind at 1, set_header at 1. rewrite Hsubject. unfold ret at 1.
  unfold bind at 1.
  rewrite (attach_loop_ok attachments datas)
    by (cbn [store]; assumption).
  reflexivity.
Qed.

(** X6: with headers that [email.message] accepts, every attachment
    readable and an SMTP session that does not fail, [send_email] opens one
    session to smtp.gmail.com on port 465, logs in with the user and the app
    password, sends one message from the user to the recipient with the
    given subject and body, carrying the attachments in the order given,
    each under the base name of its path, and quits the session.  Files,
    directories and environment are left as they were. *)
Theorem send_email_delivers (user app_password recipient subject body : string)
    (attachments : list string) (datas : list FileData) (w : World) :
  header_error "From" user = None ->
  header_error "To" recipient = None ->
  header_error "Subject" subject = None ->
  Forall2 (fun p d => store w !! p = Some d) attachments datas ->
  Forall (fun p => header_error "filename" (basename p) = None) attachments ->
  smtp_fault w AtConnect = None -> smtp_fault w AtLogin = None ->
  smtp_fault w AtSend = None -> quit_error w = None ->
  send_email user app_password recipient subject body attachments w =
  (Ok tt,
   MkWorld (clock w) (store w) (dirs w) (environ w) (smtp_fault w)
     (trace w ++
      [ CallSendEmail user app_password recipient subject body attachments;
        SmtpConnect "smtp.gmail.com" 465;
        SmtpLogin user app_password;
        SmtpSendMessage
          (MkEmail user recipient subject body
                   (zip (map basename attachments) datas));
        SmtpQuit ])).
Proof.
  intros Hfrom Hto Hsubject Hfiles Hnames Hc Hl Hs Hq.
  rewrite (send_email_session _ _ _ _ _ _ datas) by assumption.
  rewrite session_run. unfold quit_error in *. unfold logged.
  cbn [smtp_fault clock store dirs environ trace].
  rewrite Hc, Hl, Hs, Hq. rewrite <- app_assoc. reflexivity.
Qed.


(** X8: a failure of a step of the SMTP session reaches the caller of
    [send_email]; nothing is tried again: the steps up to and including the
    failing one are each taken once, the later ones not at all, except that
    a session that was opened is quit.  A failure of the connection leaves
    no session to quit; a failure of QUIT itself that is not a lost
    connection is raised although the message has been sent. *)
Theorem send_email_propagates_smtp_failure
    (user app_password recipient subject body : string)
    (attachments : list string) (datas : list FileData) (w : World)
    (stage : smtp_stage) (e : exn) :
  header_error "From" user = None ->
  header_error "To" recipient = None ->
  header_error "Subject" subject = None ->
  Forall2 (fun p d => store w !! p = Some d) attachments datas ->
  Forall (fun p => header_error "filename" (basename p) = None) attachments ->
  smtp_fault w stage = Some e ->
  match stage with
  | AtConnect => True
  | AtLogin => smtp_fault w AtConnect = None /\ quit_error w = None
  | AtSend => smtp_fault w AtConnect = None /\ smtp_fault w AtLogin = None
              /\ quit_error w = None
  | AtQuit => smtp_fault w AtConnect = None /\ smtp_fault w AtLogin = None
              /\ smtp_fault w AtSend = None
              /\ exn_cls e <> SMTPServerDisconnected
  end ->
  send_email user app_password recipient subject body attachments w =
  (Raise e,
   MkWorld (clock w) (store w) (dirs w) (environ w) (smtp_fault w)
     (trace w ++
      CallSendEmail user app_password recipient subject body attachments
      :: SmtpConnect "smtp.gmail.com" 465
      :: match stage with
         | AtConnect => []
         | AtLogin => [SmtpLogin user app_password; SmtpQuit]
         | AtSend | AtQuit =>
             [ SmtpLogin user app_password;
               SmtpSendMessage
                 (MkEmail user recipient subject body
                          (zip (map basename attachments) datas));
               SmtpQuit ]
         end)).
Proof.
  intros Hfrom Hto Hsubject Hfiles Hnames Hfault Hearlier.
  rewrite (send_email_session _ _ _ _ _ _ datas) by assumption.
  rewrite session_run. unfold quit_error in *. unfold logged.
  cbn [smtp_fault clock store dirs environ trace].
  destruct stage.
  - rewrite Hfault. rewrite <- app_assoc. reflexivity.
  - destruct Hearlier as [Hc Hq]. rewrite Hc, Hfault, Hq.
    rewrite <- app_assoc. reflexivity.
  - destruct Hearlier as (Hc & Hl & Hq). rewrite Hc, Hl, Hfault, Hq.
    rewrite <- app_assoc. reflexivity.
  - destruct Hearlier as (Hc & Hl & Hs & Hcls). rewrite Hc, Hl, Hs, Hfault.
    destruct e as [cls msg]. cbn [exn_cls] in *.
    destruct cls; try congruence; rewrite <- app_assoc; reflexivity.
Qed.

(** X24: when both the login and the QUIT of the session fail, the
    exception of QUIT is the one that reaches the caller: the failure of
    the login is lost. *)
Theorem quit_failure_masks_login_failure
    (user app_password recipient subject body : string)
    (attachments : list string) (datas : list FileData) (w : World)
    (e1 e2 : exn) :
  header_error "From" user = None ->
  header_error "To" recipient = None ->
  header_error "Subject" subject = None ->
  Forall2 (fun p d => store w !! p = Some d) attachments datas ->
  Forall (fun p => header_error "filename" (basename p) = None) attachments ->
  smtp_fault w AtConnect = None ->
  smtp_fault w AtLogin = Some e1 ->
  smtp_fault w AtQuit = Some e2 ->
  exn_cls e2 <> SMTPServerDisconnected ->
  send_email user app_password recipient subject body attachments w =
  (Raise e2,
   MkWorld (clock w) (store w) (dirs w) (environ w) (smtp_fault w)
     (trace w ++
      [ CallSendEmail user app_password recipient subject body attachments;
        SmtpConnect "smtp.gmail.com" 465;
        SmtpLogin user app_password; SmtpQuit ])).
Proof.
  intros Hfrom Hto Hsubject Hfiles Hnames Hc Hl Hq Hcls.
  rewrite (send_email_session _ _ _ _ _ _ datas) by assumption.
  rewrite session_run. unfold quit_error, logged.
  cbn [smtp_fault clock store dirs environ trace].
  rewrite Hc, Hl, Hq. destruct e2 as [cls msg]. cbn [exn_cls] in *.
  destruct cls; try congruence; rewrite <- app_assoc; reflexivity.
Qed.

(** X23: a sender, recipient or subject that [email.message] refuses
    stops [send_email] at once: the error of the first refused header is raised
    before an attachment is read or a connection opened, whatever the
    attachments are. *)
Theorem send_email_rejects_header
    (user app_password recipient subject body : string)
    (attachments : list string) (w : World) (e : exn) :
  header_error "From" user = Some e
  \/ (header_error "From" user = None /\ header_error "To" recipient = Some e)
  \/ (header_error "From" user = None /\ header_error "To" recipient = None
      /\ header_error "Subject" subject = Some e) ->
  send_email user app_password recipient subject body attachments w =
  (Raise e,
   MkWorld (clock w) (store w) (dirs w) (environ w) (smtp_fault w)
     (trace w ++
      [CallSendEmail user app_password recipient subject body attachments])).
Proof.
  intros Hbad. unfold send_email, bind at 1, emit.
  unfold bind at 1, set_header at 1.
  destruct Hbad as [Hfrom | [[Hfrom Hto] | (Hfrom & Hto & Hsubject)]];
    rewrite Hfrom; [reflexivity| |].
  - unfold ret at 1. unfold bind at 1, set_header at 1. now rewrite Hto.
  - unfold ret at 1. unfold bind at 1, set_header at 1. rewrite Hto.
    unfold ret at 1. unfold bind at 1, set_header at 1. now rewrite Hsubject.
Qed.

End Mail.

(** ** A run that mails the carousel *)





Section MailRun.
Context `{ext : Externals}.




End MailRun.

(** ** Exit status of a run with the email flag *)


Section FlagExit.
Context `{ext : Externals}.


End FlagExit.

(** ** More on rendering and on what a carousel leaves on disk *)

Lemma below_not_zip (outdir name : string) :
  outdir +:+ "/" +:+ name <> outdir +:+ ".zip".
Proof. intros Heq. apply String.app_inj in Heq. discriminate Heq. Qed.

Section OnDisk.
Context `{ext : Externals}.


(** X11: when a slide with a CTA has been rendered to a [.png] path, the
    accent badge is the measured CTA text plus 30 pixels in width and 20 in
    height; its right edge is 60 pixels from the right edge of the canvas,
    its top is at 950, below the body panel that ends at 920; and the CTA
    text is drawn in the resolved CTA font 12 pixels right of and 6 pixels
    below the badge's top-left corner, so the text box lies inside the
    badge. *)
Theorem cta_badge_encloses_text (title body cta : string) (n : Z)
    (out : string) (w w' : World) :
  cta <> "" -> is_png out = true ->
  render_slide title body cta n out w = (Ok tt, w') ->
  exists (img : Image) (x0 y0 x1 y1 cw ch : Z),
    store w' !! out = Some (Png img)
    /\ textsize cta (font_of w 26) = (cw, ch)
    /\ In (Rectangle (x0, y0, x1, y1) (PALETTE !!! "accent")) (im_ops img)
    /\ In (DrawText (inject_Z (x0 + 12), inject_Z (y0 + 6)) cta (font_of w 26)
                    (PALETTE !!! "dark")) (im_ops img)
    /\ In (Rectangle (60, 190, 1020, 920) (PALETTE !!! "cream")) (im_ops img)
    /\ x1 = 1080 - 60 /\ y0 = 950
    /\ x1 - x0 = cw + 30 /\ y1 - y0 = ch + 20
    /\ (0 <= cw -> 0 <= ch ->
        x0 < x0 + 12 /\ x0 + 12 + cw < x1 /\ y0 < y0 + 6 /\ y0 + 6 + ch < y1).
Proof.
  intros Hcta Hpng Hrun.
  rewrite (render_slide_png _ _ _ _ _ _ Hpng) in Hrun.
  destruct (first_unencodable _ _ _ _ _ _ _ _); [discriminate Hrun|].
  destruct (open_error w out); [discriminate Hrun|].
  injection Hrun as <-. cbn [store].
  destruct (textsize cta (font_of w 26)) as [cw ch] eqn:Hsize.
  exists (slide_image w title body cta n), (1080 - 60 - cw - 30), 950, 1020,
    (960 + ch + 10), cw, ch.
  split; [apply lookup_insert_eq|]. split; [reflexivity|].
  unfold slide_image, slide_ops. cbn [im_ops].
  rewrite (proj2 (truthy_spec cta) Hcta), Hsize. cbn [fst snd].
  rewrite PALETTE_accent, PALETTE_dark, PALETTE_cream.
  split; [cbn; tauto|]. split; [cbn; tauto|]. split; [cbn; tauto|].
  repeat split; lia.
Qed.

(** X13: when [generate_carousel] returns, the file of each slide shows
    that slide's own content: the file [slide_<k+1>.png] draws the k-th
    slide text (counting from 0) wrapped at 40 characters, its title
    wrapped at 20 characters (the topic's title or its default on slide 1,
    "Slide i" on the others), and the footer with its own number; the file
    of the last slide also draws the CTA text. *)
Theorem each_slide_file_shows_its_text (topic : Topic.t) (w w' : World)
    (v : string * list string * string) :
  generate_carousel topic w = (Ok v, w') ->
  let slides := get (Topic.slides topic) [] in
  forall (k : nat) (s : string), slides !! k = Some s ->
    let i := Z.of_nat k + 1 in
    exists img,
      store w' !! (outdir_of w +:+ "/" +:+ "slide_" +:+ pretty i +:+ ".png")
        = Some (Png img)
      /\ draws_multiline (textwrap_fill s 40) img = true
      /\ draws_multiline
           (textwrap_fill (if i =? 1
                           then get (Topic.title topic) "AI for MSMEs"
                           else "Slide " +:+ pretty i) 20) img = true
      /\ draws_text ("AI for MSMEs • Slide " +:+ pretty i) img = true
      /\ (i = len slides ->
          draws_text "Email for template: arunksurana@gmail.com" img = true).
Proof.
  intros Hrun slides k s Hs i.
  destruct (generate_carousel_spec topic w)
    as (r & w1 & done & m & Hrun' & _ & _ & _ & _ & _ & _ & _ & _ & Hfiles
        & _ & Hres).
  rewrite Hrun in Hrun'. injection Hrun' as <- <-.
  destruct Hres as (_ & -> & _).
  specialize (Hfiles k s ltac:(now apply lookup_lt_Some in Hs) Hs).
  eexists. split; [exact Hfiles|].
  destruct (slide_image_shows w (title_of topic i) s
              (cta_for (get (Topic.slides topic) []) i) i)
    as (Ht & Hb & Hf & Hc).
  split; [exact Hb|]. split; [exact Ht|]. split; [exact Hf|].
  intros Hlast.
  assert (Hcta : cta_for (get (Topic.slides topic) []) i = CTA_TEXT).
  { unfold cta_for. fold slides. apply Z.eqb_eq in Hlast. now rewrite Hlast. }
  fold i. rewrite Hcta in *. apply Hc. discriminate.
Qed.

(** Whatever [generate_carousel] does, no file is lost. *)
Lemma generate_carousel_keeps (topic : Topic.t) (w w' : World)
    (r : res (string * list string * string)) :
  generate_carousel topic w = (r, w') ->
  forall p, is_Some (store w !! p) -> is_Some (store w' !! p).
Proof.
  intros Hrun p Hold.
  destruct (generate_carousel_spec topic w)
    as (r1 & w1 & done & m & Hrun' & _ & _ & _ & _ & _ & Hdm & _ & Hframe
        & Hfiles & _ & Hres).
  rewrite Hrun in Hrun'. injection Hrun' as <- <-.
  destruct (decide (p = zip_of w)) as [->|Hz].
  { destruct r as [v|e].
    - destruct Hres as (_ & _ & _ & _ & _ & w2 & -> & _).
      rewrite lookup_insert_eq. eauto.
    - destruct Hres as [-> _]. exact Hold. }
  destruct (decide (p ∈ map (slide_path (outdir_of w))
                            (seqZ 1 (Z.of_nat done)))) as [Hp|Hp].
  - apply list_elem_of_fmap in Hp as (j & -> & Hj). apply elem_of_seqZ in Hj.
    destruct (lookup_lt_is_Some_2 (get (Topic.slides topic) [])
                (Z.to_nat (j - 1))) as [s Hs]; [lia|].
    specialize (Hfiles (Z.to_nat (j - 1)) s ltac:(lia) Hs).
    replace (Z.of_nat (Z.to_nat (j - 1)) + 1) with j in Hfiles by lia.
    rewrite Hfiles. eauto.
  - rewrite Hframe; [exact Hold|exact Hz|].
    intros j Hj ->. apply Hp. apply list_elem_of_fmap. exists j.
    split; [reflexivity|]. apply elem_of_seqZ. lia.
Qed.

(** X14: the archive that [generate_carousel] writes lists, by their names
    relative to the dated output directory, exactly the files and the
    directories that lie below it when the slides have been written: every
    slide of the run is in it, and so is any file that was already below
    the directory (slides of an earlier run of the same day included). *)
Theorem archive_lists_the_directory (topic : Topic.t) (w w' : World)
    (v : string * list string * string) :
  generate_carousel topic w = (Ok v, w') ->
  exists members : list string,
    store w' !! zip_of w = Some (Zip members)
    /\ (forall name,
          name ∈ members <->
          is_Some (store w' !! (outdir_of w +:+ "/" +:+ name))
          \/ exists rel, name = rel +:+ "/"
                         /\ outdir_of w +:+ "/" +:+ rel ∈ dirs w')
    /\ (forall i, 1 <= i <= len (get (Topic.slides topic) []) ->
                  slide_name i ∈ members)
    /\ (forall name, is_Some (store w !! (outdir_of w +:+ "/" +:+ name)) ->
                     name ∈ members).
Proof.
  intros Hrun.
  pose proof (generate_carousel_keeps _ _ _ _ Hrun) as Hkeeps.
  destruct (generate_carousel_spec topic w)
    as (r & w1 & done & m & Hrun' & _ & _ & _ & _ & _ & _ & _ & _ & Hfiles
        & _ & Hres).
  rewrite Hrun in Hrun'. injection Hrun' as <- <-.
  destruct Hres as (_ & -> & _ & _ & _ & w2 & Hstore & Hdirs & _).
  assert (Hmem : forall name,
             name ∈ archive_members w2 (outdir_of w) <->
             is_Some (store w' !! (outdir_of w +:+ "/" +:+ name))
             \/ exists rel, name = rel +:+ "/"
                            /\ outdir_of w +:+ "/" +:+ rel ∈ dirs w').
  { intros name. rewrite archive_members_spec, Hdirs, Hstore.
    rewrite lookup_insert_ne; [reflexivity|].
    intros Heq. symmetry in Heq. now apply below_not_zip in Heq. }
  exists (archive_members w2 (outdir_of w)).
  split; [rewrite Hstore; apply lookup_insert_eq|].
  split; [exact Hmem|]. split.
  - intros i Hi. apply Hmem. left.
    destruct (lookup_lt_is_Some_2 (get (Topic.slides topic) [])
                (Z.to_nat (i - 1))) as [s Hs].
    { unfold len in Hi. lia. }
    specialize (Hfiles (Z.to_nat (i - 1)) s
                  ltac:(now apply lookup_lt_Some in Hs) Hs).
    replace (Z.of_nat (Z.to_nat (i - 1)) + 1) with i in Hfiles by lia.
    rewrite slide_path_name in Hfiles. rewrite Hfiles. eauto.
  - intros name Hold. apply Hmem. left. now apply Hkeeps.
Qed.

(** X15: [generate_carousel] only adds to the disk, however it ends.  It
    changes no file but the K slide files and the archive, so a slide file
    with a number above K that an earlier run left stays as it is; every
    file and directory that existed still exists; the only directories it
    may make are the base directory [output] and the dated directory, and
    when it returns both exist.  Clock and environment are untouched. *)
Theorem generate_carousel_only_adds (topic : Topic.t) (w : World) :
  exists (r : res (string * list string * string)) (w' : World),
    generate_carousel topic w = (r, w')
    /\ (forall p, p <> zip_of w ->
                  (forall j, 1 <= j <= len (get (Topic.slides topic) []) ->
                             p <> slide_path (outdir_of w) j) ->
                  store w' !! p = store w !! p)
    /\ (forall p, is_Some (store w !! p) -> is_Some (store w' !! p))
    /\ dirs w ⊆ dirs w'
    /\ (forall d, d ∈ dirs w' -> d ∈ dirs w \/ d = OUT_BASE \/ d = outdir_of w)
    /\ (forall v, r = Ok v -> OUT_BASE ∈ dirs w' /\ outdir_of w ∈ dirs w')
    /\ clock w' = clock w /\ environ w' = environ w.
Proof.
  destruct (generate_carousel topic w) as [r w'] eqn:Hrun.
  pose proof (generate_carousel_keeps _ _ _ _ Hrun) as Hkeeps.
  destruct (generate_carousel_spec topic w)
    as (r1 & w1 & done & m & Hrun' & Hc & He & _ & Hsub & Hsup & Hdm & _
        & Hframe & _ & _ & Hres).
  rewrite Hrun in Hrun'. injection Hrun' as <- <-.
  exists r, w'. split; [reflexivity|]. split.
  { intros p Hz Hp. apply Hframe; [exact Hz|]. intros j Hj. apply Hp.
    unfold len. lia. }
  split; [exact Hkeeps|]. split; [exact Hsub|]. split.
  { intros d Hd. apply Hsup in Hd. set_solver. }
  split; [|split; [exact Hc|exact He]].
  intros v ->. destruct Hres as (_ & _ & _ & -> & _). set_solver.
Qed.




End OnDisk.

Section Fontless.
Context `{ext : Externals}.

(** X22: a run in a world where no candidate font loads at the size of
    the footer fails whenever the topic of the day has a slide: the process
    exits with status 1 and has written nothing, neither an image nor the
    archive; with no regular file in the way the failure is the
    [UnicodeEncodeError] of the footer of the first slide. *)
Theorem fontless_run_fails (flag : bool) (w w0 : World)
    (topics : list Topic.t) (topic : Topic.t) :
  load_topics "topics.json" w = (Ok topics, w0) ->
  topics !! Z.to_nat (toordinal (clock w) mod len topics) = Some topic ->
  get (Topic.slides topic) [] <> [] ->
  font_loads w 18 = false ->
  exists (e : exn) (w' w'' : World),
    main flag w = (Raise e, w')
    /\ script flag w = (1, w'')
    /\ store w'' = store w
    /\ (forall evs, trace w'' = (trace w ++ evs)%list ->
                    last evs = Some (Log "ERROR" ("Failed: " +:+ exn_msg e)))
    /\ (store w !! OUT_BASE = None -> store w !! outdir_of w = None ->
        exn_cls e = UnicodeEncodeError).
Proof.
  intros Hload Hlook Hslides Hfont.
  assert (Hne : topics <> []) by (intros ->; discriminate Hlook).
  destruct (main_selects flag w w0 topics Hload Hne) as (t & Ht & Hmain).
  assert (t = topic) as -> by congruence.
  destruct (generate_carousel_fontless topic w Hslides Hfont)
    as (e & w' & Hgen & Hstore & Hcls).
  destruct (generate_carousel_trace _ _ _ _ Hgen) as [m Htrace].
  rewrite (main_for_raise _ _ _ _ _ Hgen) in Hmain.
  exists e, w'. eexists. split; [exact Hmain|].
  split; [unfold script; rewrite Hmain; reflexivity|].
  cbn [store trace]. split; [exact Hstore|]. split.
  - intros evs Hevs. rewrite Htrace, <- app_assoc in Hevs.
    apply app_inv_head in Hevs. rewrite <- Hevs. apply last_snoc.
  - intros Hbase Hout. now destruct (Hcls Hbase Hout).
Qed.

End Fontless.

(** ** The theorems at work on concrete runs

    The date is 2026-11-03; [demo_world] has no font, [studio_world] and
    [mail_world] have one; [topics.json] is missing, empty, malformed, or
    holds one or two topics. *)






Lemma empty_dirs_clear (w : World) :
  dirs w = ∅ -> store w !! OUT_BASE = None ->
  store w !! outdir_of w = None -> clear_for_carousel w.
Proof.
  intros Hd Hb Ho. split; [exact Hb|]. split; [exact Ho|].
  rewrite Hd. split; [intros i|]; apply not_elem_of_empty.
Qed.

Lemma studio_clear (doc : option string) : clear_for_carousel (studio_world doc).
Proof.
  apply empty_dirs_clear; [reflexivity| |]; destruct doc; vm_compute;
    reflexivity.
Qed.

Lemma studio_fonts (doc : option string) : fonts_load (studio_world doc) = true.
Proof. destruct doc; vm_compute; reflexivity. Qed.



Lemma generate_carousel_fails_without_fonts_witness :
  get (Topic.slides demo_topic) [] <> []
  /\ font_loads (demo_world None) 18 = false
  /\ exists e w',
       @generate_carousel demo_ext demo_topic (demo_world None) = (Raise e, w')
       /\ store w' = ∅
       /\ exn_cls e = UnicodeEncodeError
       /\ length (trace w') = 1%nat.
Proof.
  assert (Hne : get (Topic.slides demo_topic) [] <> []) by discriminate.
  assert (Hfont : font_loads (demo_world None) 18 = false)
    by (vm_compute; reflexivity).
  split; [exact Hne|]. split; [exact Hfont|].
  destruct (generate_carousel_fails_without_fonts (ext := demo_ext) demo_topic
              (demo_world None) Hne Hfont)
    as (e & w' & Hrun & Hstore & Hcls).
  destruct Hcls as [He (title & body & cta & out & Htrace)];
    [vm_compute; reflexivity|vm_compute; reflexivity|].
  exists e, w'. split; [exact Hrun|]. split; [exact Hstore|].
  split; [exact He|]. rewrite Htrace. reflexivity.
Defined.

Lemma cta_only_on_last_slide_witness :
  get (Topic.slides demo_topic) [] <> []
  /\ exists v w' calls,
       @generate_carousel demo_ext demo_topic (studio_world None) = (Ok v, w')
       /\ trace w' = calls
       /\ length calls = 3%nat
       /\ (exists img,
            store w' !! "output/carousel_2026-11-03/slide_3.png" = Some (Png img)
            /\ has_cta_badge img = true)
       /\ (exists title body out,
            calls !! 0%nat = Some (CallRenderSlide title body "" 1 out)).
Proof.
  assert (Hne : get (Topic.slides demo_topic) [] <> []) by discriminate.
  split; [exact Hne|].
  destruct (cta_only_on_last_slide (ext := demo_ext) demo_topic
              (studio_world None) Hne)
    as [(r & w' & calls & Hrun & Htrace & _ & Hcalls & Hok) _].
  destruct (generate_carousel_succeeds (ext := demo_ext) demo_topic
              (studio_world None) (studio_fonts None) (studio_clear None))
    as (v & w0 & Hrun0).
  rewrite Hrun0 in Hrun. injection Hrun as <- <-.
  destruct (Hok v eq_refl) as [Hlen Hfiles].
  exists v, w0, calls. split; [exact Hrun0|]. split; [exact Htrace|].
  split; [exact Hlen|]. split.
  - destruct (Hfiles 3) as (img & Himg & Hbadge).
    { unfold len; cbn [length demo_topic Topic.slides get default from_option id];
        lia. }
    exists img. split; [exact Himg|]. apply Hbadge. reflexivity.
  - destruct (lookup_lt_is_Some_2 calls 0) as [ev Hev]; [rewrite Hlen; cbn; lia|].
    destruct (Hcalls 0%nat ev Hev) as (title & body & cta & out & -> & _ & _
                                       & Hcta).
    assert (cta = "") as ->.
    { apply Hcta. unfold len.
      cbn [length demo_topic Topic.slides get default from_option id]. lia. }
    eauto.
Defined.

Lemma slide_titles_witness :
  Topic.title demo_topic = Some "T"
  /\ get (Topic.slides demo_topic) [] <> []
  /\ exists v w' calls,
       @generate_carousel demo_ext demo_topic (studio_world None) = (Ok v, w')
       /\ trace w' = calls
       /\ (exists body cta out,
             calls !! 0%nat = Some (CallRenderSlide "T" body cta 1 out))
       /\ (exists body cta out,
             calls !! 2%nat = Some (CallRenderSlide "Slide 3" body cta 3 out)).
Proof.
  assert (Hne : get (Topic.slides demo_topic) [] <> []) by discriminate.
  split; [reflexivity|]. split; [exact Hne|].
  destruct (slide_titles (ext := demo_ext) demo_topic "T" (studio_world None)
              eq_refl Hne)
    as (r & w' & calls & Hrun & Htrace & _ & Hfirst & Hothers & Hok).
  destruct (generate_carousel_succeeds (ext := demo_ext) demo_topic
              (studio_world None) (studio_fonts None) (studio_clear None))
    as (v & w0 & Hrun0).
  rewrite Hrun0 in Hrun. injection Hrun as <- <-.
  pose proof (Hok v eq_refl) as Hlen.
  exists v, w0, calls. split; [exact Hrun0|]. split; [exact Htrace|]. split.
  - destruct (lookup_lt_is_Some_2 calls 0) as [ev Hev]; [rewrite Hlen; cbn; lia|].
    destruct (Hfirst ev Hev) as (body & cta & out & ->). eauto.
  - destruct (lookup_lt_is_Some_2 calls 2) as [ev Hev]; [rewrite Hlen; cbn; lia|].
    destruct (Hothers 3 ev ltac:(lia) Hev) as (body & cta & out & ->). eauto.
Defined.


Lemma compose_captions_fallbacks_witness :
  Topic.short_caption demo_topic = None
  /\ Topic.long_caption demo_topic = None
  /\ (compose_captions demo_topic).2 = "T" +:+ nl +:+ nl
  /\ (compose_captions demo_topic).1 = "T" +:+ nl +:+ nl +:+ nl +:+ nl.
Proof.
  destruct (compose_captions_fallbacks demo_topic) as (Hshort & Hlong & _).
  split; [reflexivity|]. split; [reflexivity|]. split.
  - rewrite (Hshort eq_refl). reflexivity.
  - rewrite (Hlong eq_refl). reflexivity.
Defined.


Lemma missing_topics_file_aborts_witness :
  path_exists (demo_world None) "topics.json" = false
  /\ exists w2,
       @script demo_ext true (demo_world None) = (1, w2)
       /\ dirs w2 = ∅ /\ store w2 = ∅.
Proof.
  assert (Hmissing : path_exists (demo_world None) "topics.json" = false)
    by (vm_compute; reflexivity).
  split; [exact Hmissing|].
  destruct (missing_topics_file_aborts (ext := demo_ext) true (demo_world None)
              Hmissing)
    as (w1 & w2 & _ & Hscript & Hdirs & Hstore & _).
  exists w2. split; [exact Hscript|]. split; [exact Hdirs|exact Hstore].
Defined.

Lemma email_config_missing_aborts_before_smtp_witness :
  (environ (studio_world (Some "[T]")) !! "GMAIL_USER" = None
   \/ environ (studio_world (Some "[T]")) !! "GMAIL_APP_PASSWORD" = None
   \/ environ (studio_world (Some "[T]")) !! "RECIPIENT" = None)
  /\ exists w' evs,
       @main demo_ext true (studio_world (Some "[T]"))
       = (Raise (Exn EnvironmentError "Missing email env vars."), w')
       /\ trace w' = evs
       /\ Forall (fun ev => is_email_event ev = false) evs.
Proof.
  set (w := studio_world (Some "[T]")).
  assert (Hunset : environ w !! "GMAIL_USER" = None
                   \/ environ w !! "GMAIL_APP_PASSWORD" = None
                   \/ environ w !! "RECIPIENT" = None)
    by (left; reflexivity).
  split; [exact Hunset|].
  destruct (email_config_missing_aborts_before_smtp (ext := demo_ext) w Hunset)
    as (e & w' & evs & Hmain & _ & Htrace & Hnone & Hwhich).
  assert (He : e = Exn EnvironmentError "Missing email env vars.").
  { destruct (@main demo_ext false w) as [[u|e0] w0] eqn:Hfalse.
    - exact (proj1 Hwhich).
    - vm_compute in Hfalse. discriminate Hfalse. }
  subst e. exists w', evs. split; [exact Hmain|]. split; [exact Htrace|exact Hnone].
Defined.

Lemma empty_topic_list_raises_zero_division_witness :
  @load_topics demo_ext "topics.json" (demo_world (Some "[]"))
  = (Ok [], demo_world (Some "[]"))
  /\ exists msg,
       @main demo_ext true (demo_world (Some "[]"))
       = (Raise (Exn ZeroDivisionError msg), demo_world (Some "[]")).
Proof.
  assert (Hload : @load_topics demo_ext "topics.json" (demo_world (Some "[]"))
                  = (Ok [], demo_world (Some "[]")))
    by (vm_compute; reflexivity).
  split; [exact Hload|].
  destruct (empty_topic_list_raises_zero_division (ext := demo_ext) true _ _
              Hload)
    as [(msg & Hmain & _) _].
  exists msg. exact Hmain.
Defined.

Lemma malformed_topics_file_aborts_witness :
  store (demo_world (Some "{")) !! "topics.json" = Some (Text "{")
  /\ @json_loads demo_ext "{" = inl "Expecting value: line 1 column 1 (char 0)"
  /\ exists w2,
       @script demo_ext false (demo_world (Some "{")) = (1, w2)
       /\ dirs w2 = ∅
       /\ store w2 = store (demo_world (Some "{")).
Proof.
  assert (Hs : store (demo_world (Some "{")) !! "topics.json" = Some (Text "{"))
    by (vm_compute; reflexivity).
  split; [exact Hs|]. split; [reflexivity|].
  destruct (malformed_topics_file_aborts (ext := demo_ext) false
              (demo_world (Some "{")) "{" _ Hs eq_refl)
    as (w1 & w2 & _ & Hscript & Hdirs & Hstore & _).
  exists w2. split; [exact Hscript|]. split; [exact Hdirs|exact Hstore].
Defined.


Lemma empty_email_variable_aborts_witness :
  (environ (mail_world (Some "") (Some "secret") (Some "to@example.org")
                       no_fault) !! "GMAIL_USER" = Some ""
   \/ environ (mail_world (Some "") (Some "secret") (Some "to@example.org")
                          no_fault) !! "GMAIL_APP_PASSWORD" = Some ""
   \/ environ (mail_world (Some "") (Some "secret") (Some "to@example.org")
                          no_fault) !! "RECIPIENT" = Some "")
  /\ exists w' evs,
       @main demo_ext true
         (mail_world (Some "") (Some "secret") (Some "to@example.org") no_fault)
       = (Raise (Exn EnvironmentError "Missing email env vars."), w')
       /\ trace w' = evs
       /\ Forall (fun ev => is_email_event ev = false) evs.
Proof.
  set (w := mail_world (Some "") (Some "secret") (Some "to@example.org")
                       no_fault).
  assert (Hempty : environ w !! "GMAIL_USER" = Some ""
                   \/ environ w !! "GMAIL_APP_PASSWORD" = Some ""
                   \/ environ w !! "RECIPIENT" = Some "")
    by (left; vm_compute; reflexivity).
  split; [exact Hempty|].
  destruct (empty_email_variable_aborts (ext := demo_ext) w Hempty)
    as (e & w' & evs & Hmain & _ & Htrace & Hnone & Hwhich).
  assert (He : e = Exn EnvironmentError "Missing email env vars.").
  { destruct (@main demo_ext false w) as [[u|e0] w0] eqn:Hfalse.
    - exact (proj1 Hwhich).
    - vm_compute in Hfalse. discriminate Hfalse. }
  subst e. exists w', evs. split; [exact Hmain|]. split; [exact Htrace|exact Hnone].
Defined.

Lemma send_email_delivers_witness :
  Forall2 (fun p d => store (attachment_world no_fault) !! p = Some d)
          ["out/slide_1.png"] [Text "png"]
  /\ exists w',
       @send_email demo_ext "me" "secret" "you" "s" "b" ["out/slide_1.png"]
                   (attachment_world no_fault) = (Ok tt, w')
       /\ trace w' =
          [ CallSendEmail "me" "secret" "you" "s" "b" ["out/slide_1.png"];
            SmtpConnect "smtp.gmail.com" 465;
            SmtpLogin "me" "secret";
            SmtpSendMessage
              (MkEmail "me" "you" "s" "b" [("slide_1.png", Text "png")]);
            SmtpQuit ].
Proof.
  assert (Hread : Forall2 (fun p d => store (attachment_world no_fault) !! p
                                      = Some d)
                          ["out/slide_1.png"] [Text "png"]).
  { constructor; [vm_compute; reflexivity|constructor]. }
  split; [exact Hread|].
  eexists. split.
  - apply (send_email_delivers (ext := demo_ext) "me" "secret" "you" "s" "b"
             ["out/slide_1.png"] [Text "png"] (attachment_world no_fault));
      try reflexivity; [exact Hread|].
    constructor; [reflexivity|constructor].
  - reflexivity.
Defined.


Lemma send_email_propagates_smtp_failure_witness :
  let fault := fun stage =>
                 match stage with
                 | AtLogin =>
                     Some (Exn SMTPException
                               "Username and Password not accepted")
                 | _ => None
                 end in
  smtp_fault (attachment_world fault) AtLogin
  = Some (Exn SMTPException "Username and Password not accepted")
  /\ exists w',
       @send_email demo_ext "me" "secret" "you" "s" "b" ["out/slide_1.png"]
                   (attachment_world fault)
       = (Raise (Exn SMTPException "Username and Password not accepted"), w')
       /\ trace w' = [ CallSendEmail "me" "secret" "you" "s" "b"
                                     ["out/slide_1.png"];
                       SmtpConnect "smtp.gmail.com" 465;
                       SmtpLogin "me" "secret";
                       SmtpQuit ].
Proof.
  intros fault.
  assert (Hread : Forall2 (fun p d => store (attachment_world fault) !! p
                                      = Some d)
                          ["out/slide_1.png"] [Text "png"]).
  { constructor; [vm_compute; reflexivity|constructor]. }
  split; [reflexivity|].
  eexists. split.
  - apply (send_email_propagates_smtp_failure (ext := demo_ext)
             "me" "secret" "you" "s" "b" ["out/slide_1.png"] [Text "png"]
             (attachment_world fault) AtLogin);
      try reflexivity; [exact Hread| |split; reflexivity].
    constructor; [reflexivity|constructor].
  - reflexivity.
Defined.

Lemma quit_failure_masks_login_failure_witness :
  let fault := fun stage =>
                 match stage with
                 | AtLogin =>
                     Some (Exn SMTPException
                               "Username and Password not accepted")
                 | AtQuit =>
                     Some (Exn SMTPResponseException "(421, b'closing')")
                 | _ => None
                 end in
  exists w',
    @send_email demo_ext "me" "secret" "you" "s" "b" ["out/slide_1.png"]
                (attachment_world fault)
    = (Raise (Exn SMTPResponseException "(421, b'closing')"), w')
    /\ last (trace w') = Some SmtpQuit.
Proof.
  intros fault.
  assert (Hread : Forall2 (fun p d => store (attachment_world fault) !! p
                                      = Some d)
                          ["out/slide_1.png"] [Text "png"]).
  { constructor; [vm_compute; reflexivity|constructor]. }
  eexists. split.
  - apply (quit_failure_masks_login_failure (ext := demo_ext)
             "me" "secret" "you" "s" "b" ["out/slide_1.png"] [Text "png"]
             (attachment_world fault)
             (Exn SMTPException "Username and Password not accepted"));
      try reflexivity; [exact Hread| |discriminate].
    constructor; [reflexivity|constructor].
  - reflexivity.
Defined.

Lemma send_email_rejects_header_witness :
  @header_error demo_ext "From" ("me" +:+ nl +:+ "Bcc: x")
  = Some (Exn ValueError
              "Header values may not contain linefeed or carriage return characters")
  /\ exists w',
       @send_email demo_ext ("me" +:+ nl +:+ "Bcc: x") "secret" "you" "s" "b"
                   ["out/missing.png"] (attachment_world no_fault)
       = (Raise (Exn ValueError
                     "Header values may not contain linefeed or carriage return characters"),
          w')
       /\ length (trace w') = 1%nat.
Proof.
  split; [reflexivity|]. eexists. split.
  - apply (send_email_rejects_header (ext := demo_ext)). left. reflexivity.
  - reflexivity.
Defined.


Lemma cta_badge_encloses_text_witness :
  "Go" <> ""
  /\ exists img w' x0 y0 x1 y1,
       @render_slide demo_ext "T" "a" "Go" 1 "s.png" font_world = (Ok tt, w')
       /\ store w' !! "s.png" = Some (Png img)
       /\ In (Rectangle (x0, y0, x1, y1) "#F5B041") (im_ops img)
       /\ x1 - x0 = 50 /\ y1 - y0 = 40.
Proof.
  assert (Hne : "Go" <> "") by discriminate.
  split; [exact Hne|].
  assert (Hrun : exists w', @render_slide demo_ext "T" "a" "Go" 1 "s.png"
                              font_world = (Ok tt, w'))
    by (eexists; vm_compute; reflexivity).
  destruct Hrun as [w' Hrun].
  destruct (cta_badge_encloses_text (ext := demo_ext) "T" "a" "Go" 1 "s.png"
              font_world w' Hne eq_refl Hrun)
    as (img & x0 & y0 & x1 & y1 & cw & ch & Himg & Hsize
        & Hbadge & _ & _ & _ & _ & Hw & Hh & _).
  cbn in Hsize. injection Hsize as <- <-.
  exists img, w', x0, y0, x1, y1. split; [exact Hrun|]. split; [exact Himg|].
  split; [exact Hbadge|]. split; [exact Hw|exact Hh].
Defined.

Lemma each_slide_file_shows_its_text_witness :
  exists v w',
    @generate_carousel demo_ext demo_topic (studio_world None) = (Ok v, w')
    /\ exists img,
         store w' !! "output/carousel_2026-11-03/slide_2.png" = Some (Png img)
         /\ draws_multiline "b" img = true
         /\ draws_multiline "Slide 2" img = true
         /\ draws_text "AI for MSMEs • Slide 2" img = true.
Proof.
  destruct (generate_carousel_succeeds (ext := demo_ext) demo_topic
              (studio_world None) (studio_fonts None) (studio_clear None))
    as (v & w' & Hrun).
  exists v, w'. split; [exact Hrun|].
  destruct (each_slide_file_shows_its_text (ext := demo_ext) demo_topic
              (studio_world None) w' v Hrun 1%nat "b" eq_refl)
    as (img & Himg & Hb & Ht & Hf & _).
  exists img. split; [exact Himg|]. split; [exact Hb|]. split; [exact Ht|].
  exact Hf.
Defined.

Lemma archive_lists_the_directory_witness :
  exists v w' members,
    @generate_carousel demo_ext demo_topic (studio_world None) = (Ok v, w')
    /\ store w' !! "output/carousel_2026-11-03.zip" = Some (Zip members)
    /\ "slide_1.png" ∈ members /\ "slide_3.png" ∈ members.
Proof.
  destruct (generate_carousel_succeeds (ext := demo_ext) demo_topic
              (studio_world None) (studio_fonts None) (studio_clear None))
    as (v & w' & Hrun).
  destruct (archive_lists_the_directory (ext := demo_ext) demo_topic
              (studio_world None) w' v Hrun)
    as (members & Hzip & _ & Hslides & _).
  exists v, w', members. split; [exact Hrun|]. split; [exact Hzip|]. split.
  - apply (Hslides 1). unfold len. cbn. lia.
  - apply (Hslides 3). unfold len. cbn. lia.
Defined.

Lemma next_day_selects_next_topic_witness :
  [demo_topic; demo_topic] <> []
  /\ toordinal (clock (dated_world (Date 2026 12 1)))
     = toordinal (clock (dated_world (Date 2026 11 30))) + 1
  /\ index_expr [demo_topic; demo_topic] (dated_world (Date 2026 11 30))
     = (Ok 0, dated_world (Date 2026 11 30))
  /\ index_expr [demo_topic; demo_topic] (dated_world (Date 2026 12 1))
     = (Ok 1, dated_world (Date 2026 12 1)).
Proof.
  assert (Hne : [demo_topic; demo_topic] <> []) by discriminate.
  assert (Ha : index_expr [demo_topic; demo_topic]
                          (dated_world (Date 2026 11 30))
               = (Ok 0, dated_world (Date 2026 11 30))) by reflexivity.
  split; [exact Hne|]. split; [reflexivity|]. split; [exact Ha|].
  exact (next_day_selects_next_topic [demo_topic; demo_topic]
           (dated_world (Date 2026 11 30)) (dated_world (Date 2026 12 1)) 0
           Hne eq_refl Ha).
Defined.

Lemma every_topic_has_its_day_witness :
  [demo_topic; demo_topic; demo_topic] <> []
  /\ 0 <= 2 < len [demo_topic; demo_topic; demo_topic]
  /\ exists k, 0 <= k < 3
               /\ forall w, toordinal (clock w) = 739923 + k ->
                            index_expr [demo_topic; demo_topic; demo_topic] w
                            = (Ok 2, w).
Proof.
  assert (Hne : [demo_topic; demo_topic; demo_topic] <> []) by discriminate.
  assert (Hi : 0 <= 2 < len [demo_topic; demo_topic; demo_topic])
    by (unfold len; cbn [length]; lia).
  split; [exact Hne|]. split; [exact Hi|].
  exact (every_topic_has_its_day [demo_topic; demo_topic; demo_topic] 739923 2
           Hne Hi).
Defined.





Lemma fontless_run_fails_witness :
  @load_topics demo_ext "topics.json" (demo_world (Some "[T]"))
  = (Ok [demo_topic], demo_world (Some "[T]"))
  /\ font_loads (demo_world (Some "[T]")) 18 = false
  /\ exists e w'',
       @script demo_ext false (demo_world (Some "[T]")) = (1, w'')
       /\ store w'' = store (demo_world (Some "[T]"))
       /\ exn_cls e = UnicodeEncodeError
       /\ last (trace w'') = Some (Log "ERROR" ("Failed: " +:+ exn_msg e)).
Proof.
  set (w := demo_world (Some "[T]")).
  assert (Hload : @load_topics demo_ext "topics.json" w = (Ok [demo_topic], w))
    by (vm_compute; reflexivity).
  assert (Hfont : font_loads w 18 = false) by (vm_compute; reflexivity).
  split; [exact Hload|]. split; [exact Hfont|].
  destruct (fontless_run_fails (ext := demo_ext) false w w [demo_topic]
              demo_topic Hload eq_refl ltac:(discriminate) Hfont)
    as (e & w' & w'' & _ & Hscript & Hstore & Hlast & Hcls).
  exists e, w''. split; [exact Hscript|]. split; [exact Hstore|].
  split; [apply Hcls; vm_compute; reflexivity|].
  apply (Hlast (trace w'')). reflexivity.
Defined.

